(** * Solarlib: solar position and sunrise/sunset calculator

    A shallow embedding of [Solarlib.cpp] / [Solarlib.h] (Luke Miller, 2012).

    - C [double] is IEEE binary64: Rocq's primitive [float].
    - C [int], [long] and [time_t] are integers in [Z]; integer division is the
      truncating [Z.quot], conversions to and from [double] are written out.
    - The functions of [math.h] whose results are not fixed by IEEE 754
      ([sin], [cos], ...) are an interface, the class [Platform]; [floor] is
      exact and is defined.
    - The file-level cache [static SolarElements SE] is an explicit state of
      type [SolarElements] passed to and returned by every operation. *)

From Stdlib Require Import ZArith Bool List Lia.
From Stdlib Require Import Floats.
From Stdlib Require Uint63.
Import ListNotations.

Set Warnings "-inexact-float".

Local Open Scope Z_scope.

(** ** C arithmetic on the target (32-bit ARM, the only platform the library
    was tested on) *)

(** [int] and [long] are 32 bits wide. [time_t] is the C library's signed
    [long] there ([Time.h] declares its own [unsigned long] only where the C
    library has none). *)
Definition INT_MIN : Z := - 2 ^ 31.
Definition INT_MAX : Z := 2 ^ 31 - 1.

(** Two's-complement wrap-around of an [int] result. *)
Definition int_wrap (z : Z) : Z := (z + 2 ^ 31) mod 2 ^ 32 - 2 ^ 31.

(** [(double) z] for an integer [z]; exact for [|z| < 2^53]. *)
Definition double_of_Z (z : Z) : float :=
  if z <? 0 then (- PrimFloat.of_uint63 (Uint63.of_Z (- z)))%float
  else PrimFloat.of_uint63 (Uint63.of_Z z).

(** The integer part of a finite [double] (rounding toward zero); [None] for
    an infinity or a not-a-number. *)
Definition trunc_double (x : float) : option Z :=
  match Prim2SF x with
  | S754_zero _ => Some 0
  | S754_finite s m e =>
      let a := if 0 <=? e then Z.shiftl (Zpos m) e else Z.shiftr (Zpos m) (- e) in
      Some (if s then - a else a)
  | S754_infinity _ | S754_nan => None
  end.

(** [floor] of [math.h]: the largest integral value not above [x]. The result
    is exact, so it is the same on every conforming platform. *)
Definition floor (x : float) : float :=
  match Prim2SF x with
  | S754_finite s m e =>
      if 0 <=? e then x
      else
        let q := Z.shiftr (Zpos m) (- e) in
        if Zpos m =? Z.shiftl q (- e) then x
        else if s then (- double_of_Z (q + 1))%float
        else double_of_Z q
  | _ => x
  end.

(** ** The [Time] library's calendar accessors *)

(** Modelled from the spec: [hour], [minute] and [second] of [Time.h] (an
    Arduino library, not in the repository) are the UTC wall-clock components
    of the instant [t], each returned as an [int]. *)
Definition second (t : Z) : Z := t mod 60.
Definition minute (t : Z) : Z := (t / 60) mod 60.
Definition hour (t : Z) : Z := (t / 3600) mod 24.

(** ** Constants of [Arduino.h] and [Solarlib.h] *)

Local Open Scope float_scope.

(** Modelled from the spec: the degree/radian conversion factors of
    [Arduino.h] (not in the repository), pi/180 and 180/pi in binary64. *)
Definition DEG_TO_RAD : float := 0.017453292519943295769236907684886.
Definition RAD_TO_DEG : float := 57.295779513082320876798154814105.

(** Julian days to the start of the Unix epoch. *)
Definition julianUnixEpoch : float := 2440587.5.

(** ** The platform interface *)

(** What the program takes from its platform and C does not pin down: the
    transcendental functions of [math.h], and the value a conversion from
    [double] to [time_t] leaves when its argument is a not-a-number, an
    infinity or out of the range of [time_t] (undefined behaviour in C). *)
Class Platform := {
  sin : float -> float;
  cos : float -> float;
  tan : float -> float;
  asin : float -> float;
  acos : float -> float;
  atan2 : float -> float -> float;
  pow : float -> float -> float;
  time_of_invalid : float -> Z
}.

(** [(time_t) x]: truncation toward zero when the integer part of [x] is
    representable; otherwise the platform's value, which the 32-bit field
    holds reduced to its range. *)
Definition time_of_double `{Platform} (x : float) : Z :=
  match trunc_double x with
  | Some z =>
      if (INT_MIN <=? z)%Z && (z <=? INT_MAX)%Z then z
      else int_wrap (time_of_invalid x)
  | None => int_wrap (time_of_invalid x)
  end.

(** ** The data model: [struct SolarElements] *)

Record SolarElements := mkSolarElements {
  tzOffset : Z;          (* Time zone Offset, zones west of GMT are negative *)
  lat : float;           (* Latitude of site, values north of equator are positive *)
  lon : float;           (* Longitude of site, values west of GMT are negative *)
  timeFracDay : float;   (* Fraction of day past midnight for current time *)
  unixDays : Z;          (* Days since 1970-1-1 *)
  JDN : float;           (* Julian Day Number *)
  JCN : float;           (* Julian Century Number *)
  GMLS : float;          (* Geometric Mean Longitude of Sun *)
  GMAS : float;          (* Geometric Mean Anomaly of Sun *)
  EEO : float;           (* Eccentricity of Earth Orbit *)
  SEC : float;           (* Sun Equation of Center *)
  STL : float;           (* Sun True Longitude (degrees) *)
  STA : float;           (* Sun True Anomaly (degrees) *)
  SRV : float;           (* Sun Radian Vector *)
  SAL : float;           (* Sun Apparent Longitude *)
  MOE : float;           (* Mean Oblique Ecliptic (degrees) *)
  OC : float;            (* Oblique correction *)
  SRA : float;           (* Sun Right Ascension (degrees) *)
  SDec : float;          (* Sun Declination (degrees) *)
  vy : float;            (* var y *)
  EOT : float;           (* Equation of Time (minutes) *)
  HAS : float;           (* Hour Angle Sunrise (degrees) *)
  SolarNoonfrac : float; (* Solar noon (fractional day) *)
  SolarNoonDays : float; (* Solar Noon (days since 1970-1-1) *)
  SolarNoonTime : Z;     (* Solar Noon time (Time Object) *)
  Sunrise : float;       (* Sunrise time (unix time, seconds) *)
  SunriseTime : Z;       (* Sunrise time (Time object) *)
  Sunset : float;        (* Sunset times (unix time, seconds) *)
  SunsetTime : Z;        (* Sunset time (Time object) *)
  SunDuration : float;   (* Sunlight Duration (minutes) *)
  TST : float;           (* True Solar Time (minutes) *)
  HA : float;            (* Hour Angle (degrees) *)
  SZA : float;           (* Solar Zenith Angle (degrees) *)
  SEA : float;           (* Solar Elevation Angle (degrees) *)
  AAR : float;           (* Approximate Atmospheric Refraction *)
  SEC_Corr : float;      (* Solar Elevation, Corrected (degrees) *)
  SAA : float            (* Solar Azimuth Angle (degrees) *)
}.

(** ** The operations *)

Section Solarlib.

Context {P : Platform}.

(** [initSolarCalc]: stores the site configuration in the cache. *)
Definition initSolarCalc (tz : Z) (la lo : float) (SE : SolarElements) : SolarElements :=
  mkSolarElements tz la lo
    (timeFracDay SE) (unixDays SE) (JDN SE) (JCN SE) (GMLS SE) (GMAS SE) (EEO SE)
    (SEC SE) (STL SE) (STA SE) (SRV SE) (SAL SE) (MOE SE) (OC SE) (SRA SE) (SDec SE)
    (vy SE) (EOT SE) (HAS SE) (SolarNoonfrac SE) (SolarNoonDays SE) (SolarNoonTime SE)
    (Sunrise SE) (SunriseTime SE) (Sunset SE) (SunsetTime SE) (SunDuration SE)
    (TST SE) (HA SE) (SZA SE) (SEA SE) (AAR SE) (SEC_Corr SE) (SAA SE).

(** The accessors of the configuration: they read the cache and leave it as
    it is, so each returns its value together with the unchanged state. *)
Definition gettzOffset (SE : SolarElements) : Z * SolarElements := (tzOffset SE, SE).
Definition getlat (SE : SolarElements) : float * SolarElements := (lat SE, SE).
Definition getlon (SE : SolarElements) : float * SolarElements := (lon SE, SE).

(** [calcSolar]: the main function. Every assignment of the source is one
    [let], in the source's order; a field assigned more than once is bound
    again under the same name. *)
Definition calcSolar (t : Z) (SE : SolarElements) : SolarElements :=
  let tzOffset := tzOffset SE in
  let lat := lat SE in
  let lon := lon SE in
  (* the time past midnight, as a fractional day value *)
  let timeFracDay :=
    (((double_of_Z (Z.quot (second t) 60) + double_of_Z (minute t)) / 60)
     + double_of_Z (hour t)) / 24 in
  (* whole days since the start of the Unix epoch, by integer division *)
  let unixDays := Z.quot t 86400 in
  let JDN := julianUnixEpoch + double_of_Z unixDays in
  let JDN := JDN + timeFracDay in
  (* adjust JDN to GMT time zone *)
  let JDN := JDN - (double_of_Z tzOffset / 24) in
  let JCN := (JDN - 2451545) / 36525 in
  let GMLS := 280.46646 + JCN * (36000.76983 + JCN * 0.0003032) in
  let GMLS := GMLS - (360 * floor (GMLS / 360)) in
  let GMAS := 357.52911 + (JCN * (35999.05029 - 0.0001537 * JCN)) in
  let EEO := 0.016708634 - (JCN * (0.000042037 + 0.0000001267 * JCN)) in
  let SEC :=
    sin (GMAS * DEG_TO_RAD) * (1.914602 - (JCN * (0.004817 + 0.000014 * JCN)))
    + sin ((2 * GMAS) * DEG_TO_RAD) * (0.019993 - 0.000101 * JCN)
    + sin ((3 * GMAS) * DEG_TO_RAD) * 0.000289 in
  let STL := GMLS + SEC in
  let STA := GMAS + SEC in
  let SRV := (1.000001018 * (1 - EEO * EEO)) / (1 + EEO * cos (STA * DEG_TO_RAD)) in
  let SAL := STL - 0.00569 - (0.00478 * sin ((125.04 - 1934.136 * JCN) * DEG_TO_RAD)) in
  let MOE :=
    23 + (26 + (21.448 - JCN * (46.815 + JCN * (0.00059 - JCN * 0.001813))) / 60) / 60 in
  let OC := MOE + 0.00256 * cos ((125.04 - 1934.136 * JCN) * DEG_TO_RAD) in
  let SRA :=
    (atan2 (cos (OC * DEG_TO_RAD) * sin (SAL * DEG_TO_RAD)) (cos (SAL * DEG_TO_RAD)))
    * RAD_TO_DEG in
  let SDec := (asin (sin (OC * DEG_TO_RAD) * sin (SAL * DEG_TO_RAD))) * RAD_TO_DEG in
  let vy := tan ((OC / 2) * DEG_TO_RAD) * tan ((OC / 2) * DEG_TO_RAD) in
  let EOT :=
    4 * ((vy * sin (2 * (GMLS * DEG_TO_RAD))
          - 2 * EEO * sin (GMAS * DEG_TO_RAD)
          + 4 * EEO * vy * sin (GMAS * DEG_TO_RAD) * cos (2 * (GMLS * DEG_TO_RAD))
          - 0.5 * vy * vy * sin (4 * (GMLS * DEG_TO_RAD))
          - 1.25 * EEO * EEO * sin (2 * (GMAS * DEG_TO_RAD)))
         * RAD_TO_DEG) in
  let HAS :=
    acos ((cos (90.833 * DEG_TO_RAD) / (cos (lat * DEG_TO_RAD) * cos (SDec * DEG_TO_RAD)))
          - tan (lat * DEG_TO_RAD) * tan (SDec * DEG_TO_RAD))
    * RAD_TO_DEG in
  (* Solar Noon as a fraction of a day, in GMT *)
  let SolarNoonfrac := (720 - 4 * lon - EOT) / 1440 in
  let SolarNoonDays := double_of_Z unixDays + SolarNoonfrac in
  (* correct it to the input time zone *)
  let SolarNoonDays := SolarNoonDays + (double_of_Z tzOffset / 24) in
  let SolarNoonTime := time_of_double (SolarNoonDays * 86400) in
  let Sunrise := SolarNoonfrac - HAS * 4 / 1440 in
  let Sunrise := double_of_Z unixDays + Sunrise in
  let Sunrise := Sunrise + (double_of_Z tzOffset / 24) in
  let Sunrise := Sunrise * 86400 in
  let SunriseTime := time_of_double Sunrise in
  let Sunset := SolarNoonfrac + HAS * 4 / 1440 in
  let Sunset := double_of_Z unixDays + Sunset in
  let Sunset := Sunset + (double_of_Z tzOffset / 24) in
  let Sunset := Sunset * 86400 in
  let SunsetTime := time_of_double Sunset in
  let SunDuration := 8 * HAS in
  let TST :=
    timeFracDay * 1440 + EOT + 4 * lon - double_of_Z (int_wrap (60 * tzOffset)) in
  let TST := TST - (1440 * floor (TST / 1440)) in
  (* neither test holds when TST is not a number: HA then keeps the value
     the cache held before the call *)
  let HA :=
    if TST / 4 <? 0 then TST / 4 + 180
    else if 0 <=? TST / 4 then TST / 4 - 180
    else HA SE in
  let SZA :=
    (acos (sin (lat * DEG_TO_RAD) * sin (SDec * DEG_TO_RAD)
           + cos (lat * DEG_TO_RAD) * cos (SDec * DEG_TO_RAD) * cos (HA * DEG_TO_RAD)))
    * RAD_TO_DEG in
  let SEA := 90 - SZA in
  let AAR :=
    if 85 <? SEA then 0
    else if 5 <? SEA then
      (58.1 / tan (SEA * DEG_TO_RAD))
      - 0.07 / (pow (tan (SEA * DEG_TO_RAD)) 3)
      + 0.000086 / (pow (tan (SEA * DEG_TO_RAD)) 5)
    else if -0.575 <? SEA then
      1735 + SEA * (-581.2 * SEA * (103.4 + SEA * (-12.79 + SEA * 0.711)))
    else -20.772 / tan (SEA * DEG_TO_RAD) in
  let AAR := AAR / 3600.0 in
  let SEC_Corr := SEA + AAR in
  let SAA :=
    if 0 <? HA then
      let SAA :=
        (acos ((sin (lat * DEG_TO_RAD) * cos (SZA * DEG_TO_RAD) - sin (SDec * DEG_TO_RAD))
               / (cos (lat * DEG_TO_RAD) * sin (SZA * DEG_TO_RAD)))
         * RAD_TO_DEG) + 180 in
      SAA - (360 * floor (SAA / 360))
    else
      let SAA :=
        540 - (acos ((sin (lat * DEG_TO_RAD) * cos (SZA * DEG_TO_RAD)
                      - sin (SDec * DEG_TO_RAD))
                     / (cos (lat * DEG_TO_RAD) * sin (SZA * DEG_TO_RAD)))
               * RAD_TO_DEG) in
      SAA - (360 * floor (SAA / 360)) in
  mkSolarElements tzOffset lat lon timeFracDay unixDays JDN JCN GMLS GMAS EEO
    SEC STL STA SRV SAL MOE OC SRA SDec vy EOT HAS SolarNoonfrac SolarNoonDays
    SolarNoonTime Sunrise SunriseTime Sunset SunsetTime SunDuration TST HA SZA SEA
    AAR SEC_Corr SAA.

(** The extractor functions: each runs [calcSolar] on the cache and returns
    one field of it; the updated cache is returned with the value. *)
Definition gettimeFracDay (t : Z) (SE : SolarElements) : float * SolarElements :=
  let SE := calcSolar t SE in (timeFracDay SE, SE).
Definition getunixDays (t : Z) (SE : SolarElements) : Z * SolarElements :=
  let SE := calcSolar t SE in (unixDays SE, SE).
Definition getJDN (t : Z) (SE : SolarElements) : float * SolarElements :=
  let SE := calcSolar t SE in (JDN SE, SE).
Definition getJCN (t : Z) (SE : SolarElements) : float * SolarElements :=
  let SE := calcSolar t SE in (JCN SE, SE).
Definition getGMLS (t : Z) (SE : SolarElements) : float * SolarElements :=
  let SE := calcSolar t SE in (GMLS SE, SE).
Definition getGMAS (t : Z) (SE : SolarElements) : float * SolarElements :=
  let SE := calcSolar t SE in (GMAS SE, SE).
Definition getEEO (t : Z) (SE : SolarElements) : float * SolarElements :=
  let SE := calcSolar t SE in (EEO SE, SE).
Definition getSEC (t : Z) (SE : SolarElements) : float * SolarElements :=
  let SE := calcSolar t SE in (SEC SE, SE).
Definition getSTL (t : Z) (SE : SolarElements) : float * SolarElements :=
  let SE := calcSolar t SE in (STL SE, SE).
Definition getSTA (t : Z) (SE : SolarElements) : float * SolarElements :=
  let SE := calcSolar t SE in (STA SE, SE).
Definition getSRV (t : Z) (SE : SolarElements) : float * SolarElements :=
  let SE := calcSolar t SE in (SRV SE, SE).
Definition getSAL (t : Z) (SE : SolarElements) : float * SolarElements :=
  let SE := calcSolar t SE in (SAL SE, SE).
Definition getMOE (t : Z) (SE : SolarElements) : float * SolarElements :=
  let SE := calcSolar t SE in (MOE SE, SE).
(* Extract Oblique correction (degrees); the source returns SE.MOE *)
Definition getOC (t : Z) (SE : SolarElements) : float * SolarElements :=
  let SE := calcSolar t SE in (MOE SE, SE).
Definition getSRA (t : Z) (SE : SolarElements) : float * SolarElements :=
  let SE := calcSolar t SE in (SRA SE, SE).
Definition getSDec (t : Z) (SE : SolarElements) : float * SolarElements :=
  let SE := calcSolar t SE in (SDec SE, SE).
Definition getvy (t : Z) (SE : SolarElements) : float * SolarElements :=
  let SE := calcSolar t SE in (vy SE, SE).
Definition getEOT (t : Z) (SE : SolarElements) : float * SolarElements :=
  let SE := calcSolar t SE in (EOT SE, SE).
Definition getHAS (t : Z) (SE : SolarElements) : float * SolarElements :=
  let SE := calcSolar t SE in (HAS SE, SE).
Definition getSolarNoonfrac (t : Z) (SE : SolarElements) : float * SolarElements :=
  let SE := calcSolar t SE in (SolarNoonfrac SE, SE).
Definition getSolarNoonDays (t : Z) (SE : SolarElements) : float * SolarElements :=
  let SE := calcSolar t SE in (SolarNoonDays SE, SE).
Definition getSolarNoonTime (t : Z) (SE : SolarElements) : Z * SolarElements :=
  let SE := calcSolar t SE in (SolarNoonTime SE, SE).
Definition getSunrise (t : Z) (SE : SolarElements) : float * SolarElements :=
  let SE := calcSolar t SE in (Sunrise SE, SE).
Definition getSunriseTime (t : Z) (SE : SolarElements) : Z * SolarElements :=
  let SE := calcSolar t SE in (SunriseTime SE, SE).
Definition getSunset (t : Z) (SE : SolarElements) : float * SolarElements :=
  let SE := calcSolar t SE in (Sunset SE, SE).
Definition getSunsetTime (t : Z) (SE : SolarElements) : Z * SolarElements :=
  let SE := calcSolar t SE in (SunsetTime SE, SE).
Definition getSunDuration (t : Z) (SE : SolarElements) : float * SolarElements :=
  let SE := calcSolar t SE in (SunDuration SE, SE).
Definition getTST (t : Z) (SE : SolarElements) : float * SolarElements :=
  let SE := calcSolar t SE in (TST SE, SE).
Definition getHA (t : Z) (SE : SolarElements) : float * SolarElements :=
  let SE := calcSolar t SE in (HA SE, SE).
Definition getSZA (t : Z) (SE : SolarElements) : float * SolarElements :=
  let SE := calcSolar t SE in (SZA SE, SE).
Definition getSEA (t : Z) (SE : SolarElements) : float * SolarElements :=
  let SE := calcSolar t SE in (SEA SE, SE).
Definition getAAR (t : Z) (SE : SolarElements) : float * SolarElements :=
  let SE := calcSolar t SE in (AAR SE, SE).
Definition getSEC_Corr (t : Z) (SE : SolarElements) : float * SolarElements :=
  let SE := calcSolar t SE in (SEC_Corr SE, SE).
Definition getSAA (t : Z) (SE : SolarElements) : float * SolarElements :=
  let SE := calcSolar t SE in (SAA SE, SE).

End Solarlib.

(** ** A reference platform

    [math.h] is not part of the repository and C leaves the accuracy of its
    functions to the implementation. To run [calcSolar] on concrete inputs the
    development carries one binary64 implementation of the functions the
    program calls: argument reduction followed by a truncated power series.
    Theorems stated for every [Platform] do not depend on it. *)
Module RefPlatform.

Definition PI : float := 3.141592653589793.
Definition PIO2 : float := 1.5707963267948966.
(** pi/2 in three pieces; the first two have 33 significant bits, so their
    products with a quadrant number below 2^20 are exact. *)
Definition PIO2_1 : float := 1.57079632673412561417.
Definition PIO2_2 : float := 6.07710050630396597660e-11.
Definition PIO2_3 : float := 2.02226624879595063154e-21.

(** The alternating series [1 - x2/(d(d+1)) * (1 - x2/((d+2)(d+3)) * (...))]
    cut after [n] factors: [cos x] for [d = 1] and [sin x / x] for [d = 2],
    with [x2 = x * x]. *)
Fixpoint series (n : nat) (x2 : float) (d : float) : float :=
  match n with
  | O => 1
  | S n' => 1 - x2 / (d * (d + 1)) * series n' x2 (d + 2)
  end.

Definition sin_kernel (r : float) : float := r * series 10 (r * r) 2.
Definition cos_kernel (r : float) : float := series 10 (r * r) 1.

(** The quadrant [k] and the remainder [r] of [x = k * pi/2 + r]. *)
Definition reduce (x : float) : option (Z * float) :=
  match trunc_double (floor (x / PIO2 + 0.5)) with
  | Some k =>
      let fk := double_of_Z k in
      Some (k, ((x - fk * PIO2_1) - fk * PIO2_2) - fk * PIO2_3)
  | None => None
  end.

Definition ref_sin (x : float) : float :=
  match reduce x with
  | Some (k, r) =>
      match (k mod 4)%Z with
      | 0%Z => sin_kernel r
      | 1%Z => cos_kernel r
      | 2%Z => - sin_kernel r
      | _ => - cos_kernel r
      end
  | None => nan
  end.

Definition ref_cos (x : float) : float :=
  match reduce x with
  | Some (k, r) =>
      match (k mod 4)%Z with
      | 0%Z => cos_kernel r
      | 1%Z => - sin_kernel r
      | 2%Z => - cos_kernel r
      | _ => sin_kernel r
      end
  | None => nan
  end.

Definition ref_tan (x : float) : float := ref_sin x / ref_cos x.

(** [atan] on [0 <= x <= 1]: three halvings of the angle, then the series. *)
Fixpoint atan_series (n : nat) (x2 : float) (d : float) : float :=
  match n with
  | O => 1 / d
  | S n' => 1 / d - x2 * atan_series n' x2 (d + 2)
  end.

Definition half_angle (x : float) : float := x / (1 + sqrt (1 + x * x)).

Definition atan_unit (x : float) : float :=
  let y := half_angle (half_angle (half_angle x)) in
  8 * (y * atan_series 12 (y * y) 1).

(** [atan] of a non-negative argument. *)
Definition atan_pos (x : float) : float :=
  if x <=? 1 then atan_unit x else PIO2 - atan_unit (1 / x).

Definition ref_atan2 (y x : float) : float :=
  if is_nan x || is_nan y then nan
  else if is_zero x && is_zero y then 0
  else
    let a := atan_pos (abs y / abs x) in
    let a := if is_zero x then PIO2 else a in
    let a := if x <? 0 then PI - a else a in
    if y <? 0 then - a else a.

Definition ref_asin (x : float) : float :=
  if (x <? -1) || (1 <? x) then nan
  else ref_atan2 x (sqrt ((1 - x) * (1 + x))).

Definition ref_acos (x : float) : float :=
  if (x <? -1) || (1 <? x) then nan
  else ref_atan2 (sqrt ((1 - x) * (1 + x))) x.

(** [pow] for the exponents the program uses: small non-negative integers. *)
Fixpoint pow_nat (x : float) (n : nat) : float :=
  match n with
  | O => 1
  | S n' => x * pow_nat x n'
  end.

Definition ref_pow (x y : float) : float :=
  match trunc_double y with
  | Some n =>
      if (double_of_Z n =? y) && (0 <=? n)%Z && (n <=? 64)%Z
      then pow_nat x (Z.to_nat n) else nan
  | None => nan
  end.

(** The soft-float conversion of the 32-bit ARM run-time library: zero for a
    not-a-number, the nearest bound of the range otherwise. *)
Definition ref_time_of_invalid (x : float) : Z :=
  if is_nan x then 0%Z else if x <? 0 then INT_MIN else INT_MAX.

Definition platform : Platform := {|
  sin := ref_sin;
  cos := ref_cos;
  tan := ref_tan;
  asin := ref_asin;
  acos := ref_acos;
  atan2 := ref_atan2;
  pow := ref_pow;
  time_of_invalid := ref_time_of_invalid
|}.

End RefPlatform.

(** The cache at program start: an object of static storage duration is
    zero-initialised. *)
Definition SE_initial : SolarElements :=
  mkSolarElements 0 0 0 0 0 0 0 0 0 0 0 0 0 0 0 0 0 0 0 0 0 0 0 0 0 0 0 0 0 0 0 0 0 0 0 0 0.

(** ** The library as a caller sees it

    The cache is private to the library, so a caller changes it only through
    the declared functions: the initialisation, the three accessors of the
    configuration, and the extractor functions, each of which runs
    [calcSolar] on the cache. *)
Inductive call : Type :=
| call_initSolarCalc (tz : Z) (la lo : float)
| call_gettzOffset
| call_getlat
| call_getlon
| call_extract (t : Z).

Definition is_init (c : call) : bool :=
  match c with
  | call_initSolarCalc _ _ _ => true
  | _ => false
  end.

Definition run_call `{Platform} (c : call) (SE : SolarElements) : SolarElements :=
  match c with
  | call_initSolarCalc tz la lo => initSolarCalc tz la lo SE
  | call_gettzOffset => snd (gettzOffset SE)
  | call_getlat => snd (getlat SE)
  | call_getlon => snd (getlon SE)
  | call_extract t => calcSolar t SE
  end.

Definition run_calls `{Platform} (cs : list call) (SE : SolarElements) : SolarElements :=
  fold_left (fun s c => run_call c s) cs SE.

(** A call that leaves the configuration alone and, when it is an extractor
    call, is made for the timestamp [t]. *)
Definition same_time_or_accessor (t : Z) (c : call) : bool :=
  match c with
  | call_initSolarCalc _ _ _ => false
  | call_extract t' => Z.eqb t' t
  | _ => true
  end.

(** The time-of-day expression of [calcSolar] at the clock reading [h]:[m],
    the [int] quotient [second(t)/60] being 0. *)
Definition clock_fraction (h m : Z) : float :=
  (((double_of_Z 0 + double_of_Z m) / 60) + double_of_Z h) / 24.

(** ** The specification's formulas, for comparison with the code *)

(** The time-of-day fraction as the specification words it:
    [(hour + minute/60 + second/3600) / 24]. *)
Definition spec_timeFracDay (t : Z) : float :=
  (double_of_Z (hour t) + double_of_Z (minute t) / 60 + double_of_Z (second t) / 3600) / 24.

(** Whole epoch days as the specification words them: [floor (t / 86400)]. *)
Definition spec_unixDays (t : Z) : Z := (t / 86400)%Z.

(** * Properties *)

(** ** IEEE binary64 facts used below

    Derived from the specification of the primitive operations
    ([FloatAxioms]) over [spec_float]. *)

(** *** Not-a-number *)

Lemma SFcompare_refl (x : spec_float) : x <> S754_nan -> SFcompare x x = Some Eq.
Proof.
  destruct x as [s|s| |s m e]; simpl; try congruence; intros _.
  - now destruct s.
  - destruct s; rewrite Z.compare_refl, Pos.compare_cont_refl; reflexivity.
Qed.

Lemma is_nan_Prim2SF (x : float) : is_nan x = true <-> Prim2SF x = S754_nan.
Proof.
  unfold is_nan. rewrite FloatAxioms.eqb_spec. unfold SFeqb. split.
  - intros H. destruct (Prim2SF x) eqn:E; try reflexivity;
      rewrite SFcompare_refl in H by congruence; discriminate.
  - intros ->. reflexivity.
Qed.

Lemma is_nan_eq (x : float) : is_nan x = true -> x = nan.
Proof.
  intros H. apply Prim2SF_inj. apply is_nan_Prim2SF in H. rewrite H. reflexivity.
Qed.

(** A not-a-number operand makes the result of an arithmetic operation a
    not-a-number. *)
Ltac nan_operand spec :=
  intros; apply Prim2SF_inj; rewrite spec; change (Prim2SF nan) with S754_nan;
  match goal with
  | |- context [Prim2SF ?x] => now destruct (Prim2SF x)
  | _ => reflexivity
  end.

Lemma mul_nan_l (y : float) : nan * y = nan.
Proof. nan_operand mul_spec. Qed.

Lemma mul_nan_r (x : float) : x * nan = nan.
Proof. nan_operand mul_spec. Qed.

Lemma div_nan_l (y : float) : nan / y = nan.
Proof. nan_operand div_spec. Qed.

Lemma div_nan_r (x : float) : x / nan = nan.
Proof. nan_operand div_spec. Qed.

Lemma add_nan_l (y : float) : nan + y = nan.
Proof. nan_operand add_spec. Qed.

Lemma add_nan_r (x : float) : x + nan = nan.
Proof. nan_operand add_spec. Qed.

Lemma sub_nan_l (y : float) : nan - y = nan.
Proof. nan_operand sub_spec. Qed.

Lemma sub_nan_r (x : float) : x - nan = nan.
Proof. nan_operand sub_spec. Qed.

Create Rewrite HintDb nan.
#[local] Hint Rewrite mul_nan_l mul_nan_r div_nan_l div_nan_r
  add_nan_l add_nan_r sub_nan_l sub_nan_r : nan.

(** [H : is_nan x = true]: replace [x] by [nan] and let it spread through the
    arithmetic of the goal. *)
Ltac nan_spreads H := rewrite (is_nan_eq _ H); autorewrite with nan; reflexivity.

(** *** The order of [<?] and [<=?] *)

Lemma SFcompare_antisym (x y : spec_float) :
  SFcompare y x = option_map CompOpp (SFcompare x y).
Proof.
  destruct x as [s1|s1| |s1 m1 e1], y as [s2|s2| |s2 m2 e2]; simpl;
    try reflexivity; try (now destruct s1); try (now destruct s2);
    try (now destruct s1, s2).
  change (Pos.compare_cont Eq m2 m1) with (Pos.compare m2 m1).
  change (Pos.compare_cont Eq m1 m2) with (Pos.compare m1 m2).
  rewrite (Z.compare_antisym e1 e2), (Pos.compare_antisym m1 m2).
  destruct s1, s2; simpl; try reflexivity;
    destruct (e1 ?= e2)%Z; simpl; try reflexivity;
    destruct (m1 ?= m2)%positive; reflexivity.
Qed.

Lemma SFcompare_lt_trans (x y z : spec_float) :
  SFcompare x y = Some Lt ->
  (SFcompare y z = Some Lt \/ SFcompare y z = Some Eq) ->
  SFcompare x z = Some Lt.
Proof.
  destruct x as [s1|s1| |s1 m1 e1], y as [s2|s2| |s2 m2 e2], z as [s3|s3| |s3 m3 e3];
    simpl; intros H1 [H2|H2]; try discriminate;
    try (destruct s1; try discriminate); try (destruct s2; try discriminate);
    try (destruct s3; try discriminate); try reflexivity; try assumption;
    revert H1 H2;
    change (Pos.compare_cont Eq m1 m2) with (Pos.compare m1 m2);
    change (Pos.compare_cont Eq m2 m3) with (Pos.compare m2 m3);
    change (Pos.compare_cont Eq m1 m3) with (Pos.compare m1 m3);
    destruct (Z.compare_spec e1 e2), (Z.compare_spec e2 e3), (Z.compare_spec e1 e3);
    try lia; try discriminate; try reflexivity;
    destruct (Pos.compare_spec m1 m2), (Pos.compare_spec m2 m3), (Pos.compare_spec m1 m3);
    simpl; try lia; try discriminate; try reflexivity.
Qed.

Lemma leb_ltb_false (x a : float) : (x <=? a) = true -> (a <? x) = false.
Proof.
  rewrite leb_spec, ltb_spec. unfold SFleb, SFltb.
  rewrite (SFcompare_antisym (Prim2SF x) (Prim2SF a)).
  destruct (SFcompare (Prim2SF x) (Prim2SF a)) as [[]|]; simpl; congruence.
Qed.

Lemma leb_ltb_trans_false (x a b : float) :
  (x <=? a) = true -> (a <? b) = true -> (b <? x) = false.
Proof.
  rewrite leb_spec, !ltb_spec. unfold SFleb, SFltb. intros Hxa Hab.
  destruct (SFcompare (Prim2SF b) (Prim2SF x)) as [[]|] eqn:Hbx; try reflexivity.
  exfalso.
  assert (Hba : SFcompare (Prim2SF b) (Prim2SF a) = Some Lt).
  { apply SFcompare_lt_trans with (y := Prim2SF x); [assumption|].
    destruct (SFcompare (Prim2SF x) (Prim2SF a)) as [[]|]; auto; discriminate. }
  rewrite (SFcompare_antisym (Prim2SF b) (Prim2SF a)), Hba in Hab. discriminate.
Qed.

(** A number is below zero or at least zero; a not-a-number is neither. *)
Lemma not_nan_ltb_or_leb (y : float) :
  is_nan y = false -> (y <? 0) = true \/ (0 <=? y) = true.
Proof.
  intros H. rewrite ltb_spec, leb_spec.
  assert (Hn : Prim2SF y <> S754_nan).
  { intros E. apply is_nan_Prim2SF in E. congruence. }
  change (Prim2SF 0) with (S754_zero false). unfold SFltb, SFleb.
  destruct (Prim2SF y) as [s|s| |s m e]; simpl; try congruence; auto;
    destruct s; auto.
Qed.

(** *** Conversions between integers and doubles *)

Lemma digits2_pos_size (p : positive) : digits2_pos p = Pos.size p.
Proof. induction p; simpl; congruence. Qed.

Lemma digits2_pos_iter_xO (p k : positive) :
  digits2_pos (Pos.iter xO p k) = (digits2_pos p + k)%positive.
Proof.
  induction k using Pos.peano_ind.
  - simpl. now rewrite Pos.add_1_r.
  - rewrite Pos.iter_succ. simpl. rewrite IHk. now rewrite Pos.add_succ_r.
Qed.

Lemma Zpos_iter_xO (p k : positive) :
  Zpos (Pos.iter xO p k) = Z.shiftl (Zpos p) (Zpos k).
Proof.
  unfold Z.shiftl.
  apply (Pos.iter_swap_gen _ _ Zpos xO (Z.mul 2)). reflexivity.
Qed.

Lemma digits2_pos_bound (p : positive) (n : positive) :
  (Zpos p < 2 ^ Zpos n)%Z -> (Zpos (digits2_pos p) <= Zpos n)%Z.
Proof.
  intros H. rewrite digits2_pos_size.
  destruct (Z.le_gt_cases (Zpos (Pos.size p)) (Zpos n)) as [|Hgt]; [assumption|exfalso].
  pose proof (Pos.size_le p) as Hs.
  assert (H2 : (2 ^ Zpos (Pos.size p) <= 2 * Zpos p)%Z).
  { change (2 * Zpos p)%Z with (Zpos p~0). rewrite <- Pos2Z.inj_pow. apply Pos2Z.pos_le_pos. exact Hs. }
  assert (H3 : (2 ^ (Zpos n + 1) <= 2 ^ Zpos (Pos.size p))%Z).
  { apply Z.pow_le_mono_r; lia. }
  rewrite Z.pow_add_r in H3 by lia. lia.
Qed.

(** A 53-bit mantissa with an exponent in range needs no rounding. *)
Lemma binary_round_aux_exact (s : bool) (m : positive) (e : Z) :
  Zpos (digits2_pos m) = 53%Z -> (-1074 <= e <= 971)%Z ->
  binary_round_aux prec emax s (Zpos m) e loc_Exact = S754_finite s m e.
Proof.
  intros Hd He. unfold binary_round_aux, shr_fexp. simpl Zdigits2. rewrite Hd.
  assert (Hf : (IntDef.Z.sub (fexp prec emax (IntDef.Z.add 53 e)) e = 0)%Z).
  { unfold fexp, SpecFloat.emin, prec, emax.
    change IntDef.Z.sub with Z.sub. change IntDef.Z.add with Z.add. change IntDef.Z.max with Z.max. lia. }
  rewrite Hf.
  cbn [shr shr_record_of_loc loc_of_shr_record round_nearest_even shr_m Zdigits2].
  rewrite Hd, Hf.
  cbn [shr shr_m].
  assert (Hle : (IntDef.Z.leb e (IntDef.Z.sub emax prec)) = true).
  { change IntDef.Z.leb with Z.leb. change IntDef.Z.sub with Z.sub.
    apply Z.leb_le; unfold emax, prec; lia. }
  rewrite Hle. reflexivity.
Qed.

Lemma Prim2SF_of_pos (p : positive) :
  (Zpos p < 2 ^ 53)%Z ->
  exists m e, Prim2SF (PrimFloat.of_uint63 (Uint63.of_Z (Zpos p))) = S754_finite false m e
    /\ (-52 <= e <= 0)%Z /\ Zpos m = Z.shiftl (Zpos p) (- e).
Proof.
  intros Hp. rewrite FloatAxioms.of_uint63_spec.
  assert (Hz : Uint63Axioms.to_Z (Uint63.of_Z (Zpos p)) = Zpos p).
  { rewrite Uint63.of_Z_spec. apply Z.mod_small. split; [lia|].
    apply Z.lt_trans with (2 ^ 53)%Z; [assumption|reflexivity]. }
  rewrite Hz. unfold binary_normalize, binary_round.
  pose proof (digits2_pos_bound p 53 Hp) as Hd.
  assert (Hd1 : (1 <= Zpos (digits2_pos p))%Z) by lia.
  assert (Hf : fexp prec emax (Zpos (digits2_pos p) + 0) = (Zpos (digits2_pos p) - 53)%Z).
  { unfold fexp, SpecFloat.emin, prec, emax. lia. }
  rewrite Hf. unfold shl_align. rewrite Z.sub_0_r.
  destruct (Zpos (digits2_pos p) - 53)%Z as [|q|k] eqn:Hk; try lia.
  - rewrite binary_round_aux_exact by lia.
    exists p, 0%Z. repeat split; try lia.
  - rewrite binary_round_aux_exact.
    + exists (Pos.iter xO p k), (Z.neg k). repeat split; try lia.
      rewrite Zpos_iter_xO. reflexivity.
    + rewrite digits2_pos_iter_xO. lia.
    + lia.
Qed.

Lemma trunc_double_of_Z (z : Z) :
  (- 2 ^ 53 < z < 2 ^ 53)%Z -> trunc_double (double_of_Z z) = Some z.
Proof.
  intros Hz. unfold trunc_double.
  destruct z as [|p|p].
  - reflexivity.
  - change (double_of_Z (Zpos p)) with (PrimFloat.of_uint63 (Uint63.of_Z (Zpos p))).
    destruct (Prim2SF_of_pos p) as (m & e & -> & He & Hm); [lia|].
    rewrite Hm. destruct (Z.leb_spec 0 e).
    + replace e with 0%Z by lia. reflexivity.
    + rewrite Z.shiftr_shiftl_l by lia. replace (- e - - e)%Z with 0%Z by lia. reflexivity.
  - change (double_of_Z (Zneg p)) with (- PrimFloat.of_uint63 (Uint63.of_Z (Zpos p))).
    rewrite FloatAxioms.opp_spec.
    destruct (Prim2SF_of_pos p) as (m & e & -> & He & Hm); [lia|].
    cbn [SFopp negb]. rewrite Hm. destruct (Z.leb_spec 0 e).
    + replace e with 0%Z by lia. reflexivity.
    + rewrite Z.shiftr_shiftl_l by lia. replace (- e - - e)%Z with 0%Z by lia. reflexivity.
Qed.

Lemma Prim2SF_finite_is_finite (x : float) s m e :
  Prim2SF x = S754_finite s m e -> is_finite x = true.
Proof.
  intros H. unfold is_finite, is_nan, is_infinity.
  rewrite !FloatAxioms.eqb_spec, FloatAxioms.abs_spec, H.
  change (Prim2SF infinity) with (S754_infinity false).
  unfold SFeqb. cbn [SFabs].
  change (SFcompare (S754_finite false m e) (S754_infinity false)) with (Some Lt).
  assert (Hr : SFcompare (S754_finite s m e) (S754_finite s m e) = Some Eq).
  { cbn [SFcompare]. rewrite Z.compare_refl, Pos.compare_cont_refl. now destruct s. }
  rewrite Hr. reflexivity.
Qed.

Lemma is_finite_double_of_Z (z : Z) :
  (- 2 ^ 53 < z < 2 ^ 53)%Z -> is_finite (double_of_Z z) = true.
Proof.
  intros Hz. destruct z as [|p|p].
  - reflexivity.
  - change (double_of_Z (Zpos p)) with (PrimFloat.of_uint63 (Uint63.of_Z (Zpos p))).
    destruct (Prim2SF_of_pos p) as (m & e & H & _); [lia|].
    eapply Prim2SF_finite_is_finite; eassumption.
  - change (double_of_Z (Zneg p)) with (- PrimFloat.of_uint63 (Uint63.of_Z (Zpos p))).
    destruct (Prim2SF_of_pos p) as (m & e & H & _); [lia|].
    apply (Prim2SF_finite_is_finite _ true m e). rewrite FloatAxioms.opp_spec, H. reflexivity.
Qed.

(** *** [floor] *)

Lemma floor_double_of_Z (z : Z) :
  (- 2 ^ 53 < z < 2 ^ 53)%Z -> floor (double_of_Z z) = double_of_Z z.
Proof.
  intros Hz. unfold floor.
  assert (Hfin : forall (x : float) (s : bool) (p m : positive) (e : Z),
             Prim2SF x = S754_finite s m e -> (-52 <= e <= 0)%Z ->
             Zpos m = Z.shiftl (Zpos p) (- e) ->
             match Prim2SF x with
             | S754_finite s m e =>
                 if (0 <=? e)%Z then x
                 else
                   let q := Z.shiftr (Zpos m) (- e) in
                   if (Zpos m =? Z.shiftl q (- e))%Z then x
                   else if s then - double_of_Z (q + 1) else double_of_Z q
             | _ => x
             end = x).
  { intros x s p m e -> He Hm. destruct (0 <=? e)%Z; [reflexivity|].
    cbv zeta. rewrite Hm, Z.shiftr_shiftl_l by lia.
    replace (- e - - e)%Z with 0%Z by lia. rewrite Z.shiftl_0_r, Z.eqb_refl.
    reflexivity. }
  destruct z as [|p|p].
  - reflexivity.
  - change (double_of_Z (Zpos p)) with (PrimFloat.of_uint63 (Uint63.of_Z (Zpos p))).
    destruct (Prim2SF_of_pos p) as (m & e & H & He & Hm); [lia|].
    apply (Hfin _ false p m e); assumption.
  - change (double_of_Z (Zneg p)) with (- PrimFloat.of_uint63 (Uint63.of_Z (Zpos p))).
    destruct (Prim2SF_of_pos p) as (m & e & H & He & Hm); [lia|].
    apply (Hfin _ true p m e); try assumption.
    rewrite FloatAxioms.opp_spec, H. reflexivity.
Qed.

(** [floor] rounds toward minus infinity, where the conversion to an integer
    rounds toward zero. *)
Example floor_values :
  map floor [2.5; -2.5; -0.0000001; 359.99999999999994; -359.99999999999994]
  = [2; -3; -1; 359; -360]
  /\ map trunc_double [2.5; -2.5; -0.0000001] = [Some 2; Some (-2); Some 0]%Z
  /\ Leibniz.eqb (floor nan) nan = true
  /\ map floor [infinity; neg_infinity] = [infinity; neg_infinity].
Proof. vm_compute. repeat split. Qed.

(** *** The range of [int] *)

Lemma int_wrap_range (z : Z) : (INT_MIN <= int_wrap z <= INT_MAX)%Z.
Proof.
  unfold int_wrap, INT_MIN, INT_MAX.
  pose proof (Z.mod_pos_bound (z + 2 ^ 31) (2 ^ 32) ltac:(lia)). lia.
Qed.

(** ** The record *)

Lemma SolarElements_eta (X : SolarElements) :
  X = mkSolarElements (tzOffset X) (lat X) (lon X) (timeFracDay X) (unixDays X) (JDN X)
        (JCN X) (GMLS X) (GMAS X) (EEO X) (SEC X) (STL X) (STA X) (SRV X) (SAL X) (MOE X)
        (OC X) (SRA X) (SDec X) (vy X) (EOT X) (HAS X) (SolarNoonfrac X) (SolarNoonDays X)
        (SolarNoonTime X) (Sunrise X) (SunriseTime X) (Sunset X) (SunsetTime X)
        (SunDuration X) (TST X) (HA X) (SZA X) (SEA X) (AAR X) (SEC_Corr X) (SAA X).
Proof. now destruct X. Qed.

(** ** The equations of [calcSolar]

    Each field of the result, in terms of the inputs and of the fields
    computed before it. *)
Section Equations.

Context {P : Platform}.
Variables (t : Z) (SE : SolarElements).

Local Abbreviation R := (calcSolar t SE).

Lemma calcSolar_tzOffset : tzOffset R = tzOffset SE.
Proof. reflexivity. Qed.

Lemma calcSolar_lat : lat R = lat SE.
Proof. reflexivity. Qed.

Lemma calcSolar_lon : lon R = lon SE.
Proof. reflexivity. Qed.

Lemma calcSolar_timeFracDay :
  timeFracDay R =
  (((double_of_Z (Z.quot (second t) 60) + double_of_Z (minute t)) / 60)
   + double_of_Z (hour t)) / 24.
Proof. reflexivity. Qed.

Lemma calcSolar_unixDays : unixDays R = Z.quot t 86400.
Proof. reflexivity. Qed.

Lemma calcSolar_JDN :
  JDN R = julianUnixEpoch + double_of_Z (unixDays R) + timeFracDay R
          - double_of_Z (tzOffset R) / 24.
Proof. reflexivity. Qed.

Lemma calcSolar_JCN : JCN R = (JDN R - 2451545) / 36525.
Proof. reflexivity. Qed.

Lemma calcSolar_GMLS :
  GMLS R =
  let x := 280.46646 + JCN R * (36000.76983 + JCN R * 0.0003032) in
  x - 360 * floor (x / 360).
Proof. reflexivity. Qed.

Lemma calcSolar_GMAS :
  GMAS R = 357.52911 + JCN R * (35999.05029 - 0.0001537 * JCN R).
Proof. reflexivity. Qed.

Lemma calcSolar_EEO :
  EEO R = 0.016708634 - JCN R * (0.000042037 + 0.0000001267 * JCN R).
Proof. reflexivity. Qed.

Lemma calcSolar_SEC :
  SEC R =
  sin (GMAS R * DEG_TO_RAD) * (1.914602 - JCN R * (0.004817 + 0.000014 * JCN R))
  + sin (2 * GMAS R * DEG_TO_RAD) * (0.019993 - 0.000101 * JCN R)
  + sin (3 * GMAS R * DEG_TO_RAD) * 0.000289.
Proof. reflexivity. Qed.

Lemma calcSolar_STL : STL R = GMLS R + SEC R.
Proof. reflexivity. Qed.

Lemma calcSolar_STA : STA R = GMAS R + SEC R.
Proof. reflexivity. Qed.

Lemma calcSolar_SRV :
  SRV R = 1.000001018 * (1 - EEO R * EEO R) / (1 + EEO R * cos (STA R * DEG_TO_RAD)).
Proof. reflexivity. Qed.

Lemma calcSolar_SAL :
  SAL R = STL R - 0.00569 - 0.00478 * sin ((125.04 - 1934.136 * JCN R) * DEG_TO_RAD).
Proof. reflexivity. Qed.

Lemma calcSolar_MOE :
  MOE R =
  23 + (26 + (21.448 - JCN R * (46.815 + JCN R * (0.00059 - JCN R * 0.001813))) / 60) / 60.
Proof. reflexivity. Qed.

Lemma calcSolar_OC :
  OC R = MOE R + 0.00256 * cos ((125.04 - 1934.136 * JCN R) * DEG_TO_RAD).
Proof. reflexivity. Qed.

Lemma calcSolar_SRA :
  SRA R =
  atan2 (cos (OC R * DEG_TO_RAD) * sin (SAL R * DEG_TO_RAD)) (cos (SAL R * DEG_TO_RAD))
  * RAD_TO_DEG.
Proof. reflexivity. Qed.

Lemma calcSolar_SDec :
  SDec R = asin (sin (OC R * DEG_TO_RAD) * sin (SAL R * DEG_TO_RAD)) * RAD_TO_DEG.
Proof. reflexivity. Qed.

Lemma calcSolar_vy :
  vy R = tan (OC R / 2 * DEG_TO_RAD) * tan (OC R / 2 * DEG_TO_RAD).
Proof. reflexivity. Qed.

Lemma calcSolar_EOT :
  EOT R =
  4 * ((vy R * sin (2 * (GMLS R * DEG_TO_RAD))
        - 2 * EEO R * sin (GMAS R * DEG_TO_RAD)
        + 4 * EEO R * vy R * sin (GMAS R * DEG_TO_RAD) * cos (2 * (GMLS R * DEG_TO_RAD))
        - 0.5 * vy R * vy R * sin (4 * (GMLS R * DEG_TO_RAD))
        - 1.25 * EEO R * EEO R * sin (2 * (GMAS R * DEG_TO_RAD)))
       * RAD_TO_DEG).
Proof. reflexivity. Qed.

Lemma calcSolar_HAS :
  HAS R =
  acos (cos (90.833 * DEG_TO_RAD) / (cos (lat R * DEG_TO_RAD) * cos (SDec R * DEG_TO_RAD))
        - tan (lat R * DEG_TO_RAD) * tan (SDec R * DEG_TO_RAD))
  * RAD_TO_DEG.
Proof. reflexivity. Qed.

Lemma calcSolar_SolarNoonfrac :
  SolarNoonfrac R = (720 - 4 * lon R - EOT R) / 1440.
Proof. reflexivity. Qed.

Lemma calcSolar_SolarNoonDays :
  SolarNoonDays R =
  double_of_Z (unixDays R) + SolarNoonfrac R + double_of_Z (tzOffset R) / 24.
Proof. reflexivity. Qed.

Lemma calcSolar_SolarNoonTime :
  SolarNoonTime R = time_of_double (SolarNoonDays R * 86400).
Proof. reflexivity. Qed.

Lemma calcSolar_Sunrise :
  Sunrise R =
  (double_of_Z (unixDays R) + (SolarNoonfrac R - HAS R * 4 / 1440)
   + double_of_Z (tzOffset R) / 24) * 86400.
Proof. reflexivity. Qed.

Lemma calcSolar_SunriseTime : SunriseTime R = time_of_double (Sunrise R).
Proof. reflexivity. Qed.

Lemma calcSolar_Sunset :
  Sunset R =
  (double_of_Z (unixDays R) + (SolarNoonfrac R + HAS R * 4 / 1440)
   + double_of_Z (tzOffset R) / 24) * 86400.
Proof. reflexivity. Qed.

Lemma calcSolar_SunsetTime : SunsetTime R = time_of_double (Sunset R).
Proof. reflexivity. Qed.

Lemma calcSolar_SunDuration : SunDuration R = 8 * HAS R.
Proof. reflexivity. Qed.

Lemma calcSolar_TST :
  TST R =
  let x := timeFracDay R * 1440 + EOT R + 4 * lon R
           - double_of_Z (int_wrap (60 * tzOffset R)) in
  x - 1440 * floor (x / 1440).
Proof. reflexivity. Qed.

Lemma calcSolar_HA :
  HA R =
  if TST R / 4 <? 0 then TST R / 4 + 180
  else if 0 <=? TST R / 4 then TST R / 4 - 180
  else HA SE.
Proof. reflexivity. Qed.

Lemma calcSolar_SZA :
  SZA R =
  acos (sin (lat R * DEG_TO_RAD) * sin (SDec R * DEG_TO_RAD)
        + cos (lat R * DEG_TO_RAD) * cos (SDec R * DEG_TO_RAD) * cos (HA R * DEG_TO_RAD))
  * RAD_TO_DEG.
Proof. reflexivity. Qed.

Lemma calcSolar_SEA : SEA R = 90 - SZA R.
Proof. reflexivity. Qed.

Lemma calcSolar_AAR :
  AAR R =
  (if 85 <? SEA R then 0
   else if 5 <? SEA R then
     58.1 / tan (SEA R * DEG_TO_RAD)
     - 0.07 / pow (tan (SEA R * DEG_TO_RAD)) 3
     + 0.000086 / pow (tan (SEA R * DEG_TO_RAD)) 5
   else if -0.575 <? SEA R then
     1735 + SEA R * (-581.2 * SEA R * (103.4 + SEA R * (-12.79 + SEA R * 0.711)))
   else -20.772 / tan (SEA R * DEG_TO_RAD)) / 3600.
Proof. reflexivity. Qed.

Lemma calcSolar_SEC_Corr : SEC_Corr R = SEA R + AAR R.
Proof. reflexivity. Qed.

Lemma calcSolar_SAA :
  SAA R =
  let a :=
    acos ((sin (lat R * DEG_TO_RAD) * cos (SZA R * DEG_TO_RAD) - sin (SDec R * DEG_TO_RAD))
          / (cos (lat R * DEG_TO_RAD) * sin (SZA R * DEG_TO_RAD)))
    * RAD_TO_DEG in
  if 0 <? HA R then
    let x := a + 180 in x - 360 * floor (x / 360)
  else
    let x := 540 - a in x - 360 * floor (x / 360).
Proof. reflexivity. Qed.

End Equations.

(** ** Two runs at the same site and the same Julian date

    Everything [calcSolar] computes between the Julian date and the hour
    angle at sunrise depends on the inputs through the Julian date, the
    latitude and the longitude only. *)
Section SameInstant.

Context {P : Platform}.
Variables (t1 t2 : Z) (S1 S2 : SolarElements).

Local Abbreviation R1 := (calcSolar t1 S1).
Local Abbreviation R2 := (calcSolar t2 S2).

Hypothesis same_lat : lat S1 = lat S2.
Hypothesis same_lon : lon S1 = lon S2.
Hypothesis same_JDN : JDN R1 = JDN R2.

Lemma same_JCN : JCN R1 = JCN R2.
Proof. rewrite !calcSolar_JCN. now rewrite same_JDN. Qed.

Lemma same_GMLS : GMLS R1 = GMLS R2.
Proof. rewrite !calcSolar_GMLS. now rewrite same_JCN. Qed.

Lemma same_GMAS : GMAS R1 = GMAS R2.
Proof. rewrite !calcSolar_GMAS. now rewrite same_JCN. Qed.

Lemma same_EEO : EEO R1 = EEO R2.
Proof. rewrite !calcSolar_EEO. now rewrite same_JCN. Qed.

Lemma same_SEC : SEC R1 = SEC R2.
Proof. rewrite !calcSolar_SEC. now rewrite same_JCN, same_GMAS. Qed.

Lemma same_STL : STL R1 = STL R2.
Proof. rewrite !calcSolar_STL. now rewrite same_GMLS, same_SEC. Qed.

Lemma same_STA : STA R1 = STA R2.
Proof. rewrite !calcSolar_STA. now rewrite same_GMAS, same_SEC. Qed.

Lemma same_SRV : SRV R1 = SRV R2.
Proof. rewrite !calcSolar_SRV. now rewrite same_EEO, same_STA. Qed.

Lemma same_SAL : SAL R1 = SAL R2.
Proof. rewrite !calcSolar_SAL. now rewrite same_JCN, same_STL. Qed.

Lemma same_MOE : MOE R1 = MOE R2.
Proof. rewrite !calcSolar_MOE. now rewrite same_JCN. Qed.

Lemma same_OC : OC R1 = OC R2.
Proof. rewrite !calcSolar_OC. now rewrite same_JCN, same_MOE. Qed.

Lemma same_SRA : SRA R1 = SRA R2.
Proof. rewrite !calcSolar_SRA. now rewrite same_OC, same_SAL. Qed.

Lemma same_SDec : SDec R1 = SDec R2.
Proof. rewrite !calcSolar_SDec. now rewrite same_OC, same_SAL. Qed.

Lemma same_vy : vy R1 = vy R2.
Proof. rewrite !calcSolar_vy. now rewrite same_OC. Qed.

Lemma same_EOT : EOT R1 = EOT R2.
Proof. rewrite !calcSolar_EOT. now rewrite same_vy, same_GMLS, same_EEO, same_GMAS. Qed.

Lemma same_HAS : HAS R1 = HAS R2.
Proof. rewrite !calcSolar_HAS, !calcSolar_lat. now rewrite same_lat, same_SDec. Qed.

Lemma same_SolarNoonfrac : SolarNoonfrac R1 = SolarNoonfrac R2.
Proof. rewrite !calcSolar_SolarNoonfrac, !calcSolar_lon. now rewrite same_lon, same_EOT. Qed.

Lemma same_SunDuration : SunDuration R1 = SunDuration R2.
Proof. rewrite !calcSolar_SunDuration. now rewrite same_HAS. Qed.

End SameInstant.

(** ** What a run keeps of the cache it starts from *)
Section Overwrite.

Context {P : Platform}.
Variables (t : Z) (S S' : SolarElements).

Local Abbreviation R := (calcSolar t S).
Local Abbreviation R' := (calcSolar t S').

Hypothesis same_tzOffset : tzOffset S = tzOffset S'.
Hypothesis same_lat : lat S = lat S'.
Hypothesis same_lon : lon S = lon S'.

Lemma ow_JDN : JDN R = JDN R'.
Proof.
  rewrite !calcSolar_JDN, !calcSolar_unixDays, !calcSolar_timeFracDay, !calcSolar_tzOffset.
  now rewrite same_tzOffset.
Qed.

Lemma ow_SolarNoonDays : SolarNoonDays R = SolarNoonDays R'.
Proof.
  rewrite !calcSolar_SolarNoonDays, !calcSolar_unixDays, !calcSolar_tzOffset.
  now rewrite (same_SolarNoonfrac t t S S' same_lon ow_JDN), same_tzOffset.
Qed.

Lemma ow_SolarNoonTime : SolarNoonTime R = SolarNoonTime R'.
Proof. rewrite !calcSolar_SolarNoonTime. now rewrite ow_SolarNoonDays. Qed.

Lemma ow_Sunrise : Sunrise R = Sunrise R'.
Proof.
  rewrite !calcSolar_Sunrise, !calcSolar_unixDays, !calcSolar_tzOffset.
  now rewrite (same_SolarNoonfrac t t S S' same_lon ow_JDN),
              (same_HAS t t S S' same_lat ow_JDN), same_tzOffset.
Qed.

Lemma ow_SunriseTime : SunriseTime R = SunriseTime R'.
Proof. rewrite !calcSolar_SunriseTime. now rewrite ow_Sunrise. Qed.

Lemma ow_Sunset : Sunset R = Sunset R'.
Proof.
  rewrite !calcSolar_Sunset, !calcSolar_unixDays, !calcSolar_tzOffset.
  now rewrite (same_SolarNoonfrac t t S S' same_lon ow_JDN),
              (same_HAS t t S S' same_lat ow_JDN), same_tzOffset.
Qed.

Lemma ow_SunsetTime : SunsetTime R = SunsetTime R'.
Proof. rewrite !calcSolar_SunsetTime. now rewrite ow_Sunset. Qed.

Lemma ow_TST : TST R = TST R'.
Proof.
  rewrite !calcSolar_TST, !calcSolar_timeFracDay, !calcSolar_tzOffset, !calcSolar_lon.
  now rewrite (same_EOT t t S S' ow_JDN), same_lon, same_tzOffset.
Qed.

Hypothesis TST_is_a_number : is_nan (TST R / 4) = false.

Lemma ow_HA : HA R = HA R'.
Proof.
  rewrite !calcSolar_HA, <- ow_TST.
  destruct (not_nan_ltb_or_leb _ TST_is_a_number) as [H|H]; rewrite H.
  - reflexivity.
  - now destruct (TST R / 4 <? 0).
Qed.

Lemma ow_SZA : SZA R = SZA R'.
Proof.
  rewrite !calcSolar_SZA, !calcSolar_lat.
  now rewrite ow_HA, (same_SDec t t S S' ow_JDN), same_lat.
Qed.

Lemma ow_SEA : SEA R = SEA R'.
Proof. rewrite !calcSolar_SEA. now rewrite ow_SZA. Qed.

Lemma ow_AAR : AAR R = AAR R'.
Proof. rewrite !calcSolar_AAR. now rewrite ow_SEA. Qed.

Lemma ow_SEC_Corr : SEC_Corr R = SEC_Corr R'.
Proof. rewrite !calcSolar_SEC_Corr. now rewrite ow_SEA, ow_AAR. Qed.

Lemma ow_SAA : SAA R = SAA R'.
Proof.
  rewrite !calcSolar_SAA, !calcSolar_lat.
  now rewrite ow_HA, ow_SZA, (same_SDec t t S S' ow_JDN), same_lat.
Qed.

(** When the true solar time is a number, [calcSolar] assigns every computed
    field: the result is a function of the timestamp and of the
    configuration, and nothing else the cache held is left in it. *)
Lemma calcSolar_overwrites_cache : R = R'.
Proof.
  rewrite (SolarElements_eta R), (SolarElements_eta R').
  rewrite !calcSolar_tzOffset, !calcSolar_lat, !calcSolar_lon.
  rewrite !calcSolar_timeFracDay, !calcSolar_unixDays.
  pose proof ow_JDN as HJ.
  rewrite HJ, (same_JCN t t S S' HJ), (same_GMLS t t S S' HJ), (same_GMAS t t S S' HJ),
    (same_EEO t t S S' HJ), (same_SEC t t S S' HJ), (same_STL t t S S' HJ),
    (same_STA t t S S' HJ), (same_SRV t t S S' HJ), (same_SAL t t S S' HJ),
    (same_MOE t t S S' HJ), (same_OC t t S S' HJ), (same_SRA t t S S' HJ),
    (same_SDec t t S S' HJ), (same_vy t t S S' HJ), (same_EOT t t S S' HJ),
    (same_HAS t t S S' same_lat HJ), (same_SolarNoonfrac t t S S' same_lon HJ),
    (same_SunDuration t t S S' same_lat HJ).
  rewrite ow_SolarNoonDays, ow_SolarNoonTime, ow_Sunrise, ow_SunriseTime, ow_Sunset,
    ow_SunsetTime, ow_TST, ow_HA, ow_SZA, ow_SEA, ow_AAR, ow_SEC_Corr, ow_SAA.
  now rewrite same_tzOffset, same_lat, same_lon.
Qed.

End Overwrite.

(** ** A not-a-number hour angle at sunrise reaches its dependents *)
Section NaNPropagation.

Context {P : Platform}.
Variables (t : Z) (SE : SolarElements).
Local Abbreviation R := (calcSolar t SE).

Hypothesis no_sunrise : is_nan (HAS R) = true.

Lemma nan_Sunrise : Sunrise R = nan.
Proof. rewrite calcSolar_Sunrise. nan_spreads no_sunrise. Qed.

Lemma nan_Sunset : Sunset R = nan.
Proof. rewrite calcSolar_Sunset. nan_spreads no_sunrise. Qed.

Lemma nan_SunDuration : SunDuration R = nan.
Proof. rewrite calcSolar_SunDuration. nan_spreads no_sunrise. Qed.

End NaNPropagation.

(** ** The conversion to [time_t] *)
Section Conversion.

Context {P : Platform}.

Lemma time_of_double_trunc (x : float) (z : Z) :
  trunc_double x = Some z -> (INT_MIN <= z <= INT_MAX)%Z -> time_of_double x = z.
Proof.
  intros Hx [Hlo Hhi]. unfold time_of_double. rewrite Hx.
  apply Z.leb_le in Hlo, Hhi. now rewrite Hlo, Hhi.
Qed.

Lemma time_of_double_nan : time_of_double nan = int_wrap (time_of_invalid nan).
Proof. reflexivity. Qed.

Lemma time_of_double_range (x : float) : (INT_MIN <= time_of_double x <= INT_MAX)%Z.
Proof.
  unfold time_of_double. destruct (trunc_double x) as [z|]; [|apply int_wrap_range].
  destruct (INT_MIN <=? z)%Z eqn:Hlo; [|apply int_wrap_range].
  destruct (z <=? INT_MAX)%Z eqn:Hhi; [|apply int_wrap_range].
  simpl. apply Z.leb_le in Hlo, Hhi. lia.
Qed.

Lemma time_of_double_of_Z (z : Z) :
  (INT_MIN <= z <= INT_MAX)%Z -> time_of_double (double_of_Z z) = z.
Proof.
  intros H. apply time_of_double_trunc; [|assumption].
  apply trunc_double_of_Z. unfold INT_MIN, INT_MAX in H. lia.
Qed.

(** The integer a not-a-number leaves in a [time_t] is also the conversion of
    a finite double. *)
Lemma time_of_double_nan_collides :
  exists x : float, is_finite x = true /\ time_of_double x = time_of_double nan.
Proof.
  exists (double_of_Z (time_of_double nan)). split.
  - apply is_finite_double_of_Z.
    pose proof (time_of_double_range nan) as H. unfold INT_MIN, INT_MAX in H. lia.
  - apply time_of_double_of_Z, time_of_double_range.
Qed.

End Conversion.

(** ** The configuration under a caller's calls *)
Section Configuration.

Context {P : Platform}.

Lemma run_call_config (c : call) (SE : SolarElements) :
  is_init c = false ->
  tzOffset (run_call c SE) = tzOffset SE
  /\ lat (run_call c SE) = lat SE
  /\ lon (run_call c SE) = lon SE.
Proof.
  destruct c; simpl; intros H; try discriminate; repeat split.
Qed.

Lemma run_calls_config (cs : list call) :
  forall SE : SolarElements,
    forallb (fun c => negb (is_init c)) cs = true ->
    tzOffset (run_calls cs SE) = tzOffset SE
    /\ lat (run_calls cs SE) = lat SE
    /\ lon (run_calls cs SE) = lon SE.
Proof.
  induction cs as [|c cs IH]; intros SE H.
  - repeat split.
  - simpl in H. apply andb_true_iff in H. destruct H as [Hc Hcs].
    apply negb_true_iff in Hc.
    destruct (run_call_config c SE Hc) as (Ht & Hla & Hlo).
    destruct (IH (run_call c SE) Hcs) as (Ht' & Hla' & Hlo').
    unfold run_calls in *. simpl. rewrite Ht', Hla', Hlo'. auto.
Qed.

End Configuration.

(** ** The reference platform on known values *)

(** To 17 significant digits the reference functions return, within three
    units of the last place, sin 0.5 = 0.479425538604203000...,
    cos 1 = 0.540302305868139717..., tan 1 = 1.557407724654902230...,
    asin 0.5 = pi/6 = 0.523598775598298873..., acos 0.5 = pi/3 =
    1.047197551196597746... and atan2 1 1 = pi/4 = 0.785398163397448309... *)
Example reference_values :
  RefPlatform.ref_sin 0.5 = 0.47942553860420301
  /\ RefPlatform.ref_cos 1 = 0.54030230586813977
  /\ RefPlatform.ref_tan 1 = 1.5574077246549021
  /\ RefPlatform.ref_asin 0.5 = 0.52359877559829904
  /\ RefPlatform.ref_acos 0.5 = 1.0471975511965974
  /\ RefPlatform.ref_atan2 1 1 = 0.78539816339744828
  /\ RefPlatform.ref_pow 2 5 = 32.
Proof. vm_compute. repeat split. Qed.

(** Outside [-1, 1] the inverse cosine is a domain error. *)
Lemma ref_acos_domain (x : float) :
  (1 <? x) = true \/ (x <? -1) = true -> RefPlatform.ref_acos x = nan.
Proof.
  unfold RefPlatform.ref_acos. intros [H|H]; rewrite H; [|reflexivity].
  now rewrite orb_true_r.
Qed.

(** Monterey, California (36.62 N, 121.904 W, UTC-8) on 2012-06-21 at noon
    local standard time: sunrise 04:49:35, solar noon 12:09:33 and sunset
    19:29:31 on the local clock, the sun 76.66 degrees above the horizon at
    azimuth 170.45. *)
Example Monterey_summer_solstice :
  let R := @calcSolar RefPlatform.platform 1340280000
             (initSolarCalc (-8) 36.62 (-121.904) SE_initial) in
  (SunriseTime R, SolarNoonTime R, SunsetTime R)
  = (1340254175, 1340280573, 1340306971)%Z
  /\ (SunriseTime R - 86400 * unixDays R = 4 * 3600 + 49 * 60 + 35)%Z
  /\ SEC_Corr R = 76.657658149204877
  /\ SAA R = 170.45424858322747
  /\ SunDuration R = 879.93115574677699.
Proof. vm_compute. repeat split. Qed.

(** * The claims *)

(** ** C1: the time-of-day fraction *)

Lemma second_quot_60 (t : Z) : Z.quot (second t) 60 = 0%Z.
Proof.
  unfold second. apply Z.quot_small. apply Z.mod_pos_bound. lia.
Qed.

(** C1. The specification gives the time-of-day fraction as
    [(hour + minute/60 + second/3600) / 24]. The code divides [second(t)] by
    60 as an [int] before the conversion to [double], so the seconds never
    contribute: on every timestamp the field is [(minute/60 + hour) / 24].
    Thirty seconds past midnight it is 0, where the specification's formula
    gives 30/86400. *)
Theorem timeFracDay_drops_seconds :
  (forall (P : Platform) (t : Z) (SE : SolarElements),
      timeFracDay (calcSolar t SE)
      = ((0 + double_of_Z (minute t)) / 60 + double_of_Z (hour t)) / 24)
  /\ (forall (P : Platform) (SE : SolarElements), timeFracDay (calcSolar 30 SE) = 0)
  /\ spec_timeFracDay 30 = 0.00034722222222222224
  /\ (0 <? spec_timeFracDay 30) = true.
Proof.
  split; [|split; [|split]].
  - intros P t SE. rewrite calcSolar_timeFracDay, second_quot_60. reflexivity.
  - intros P SE. rewrite calcSolar_timeFracDay. vm_compute. reflexivity.
  - vm_compute. reflexivity.
  - vm_compute. reflexivity.
Qed.

(** ** C2: [getOC] *)

(** C2. For every timestamp and every cache, [getOC] runs [calcSolar] and
    returns the Mean-Obliquity field [MOE] of the result, as [getMOE] does,
    and not the Obliquity-Correction field [OC], which [calcSolar] computes
    and stores as [MOE + 0.00256 * cos (...)]. On the reference platform, at
    Monterey on 2012-06-21, the two fields differ in the fourth decimal. *)
Theorem getOC_returns_MOE :
  (forall (P : Platform) (t : Z) (SE : SolarElements),
      fst (getOC t SE) = MOE (calcSolar t SE)
      /\ snd (getOC t SE) = calcSolar t SE
      /\ getOC t SE = getMOE t SE
      /\ OC (calcSolar t SE)
         = MOE (calcSolar t SE)
           + 0.00256 * cos ((125.04 - 1934.136 * JCN (calcSolar t SE)) * DEG_TO_RAD))
  /\ (let SE := initSolarCalc (-8) 36.62 (-121.904) SE_initial in
      let R := @calcSolar RefPlatform.platform 1340280000 SE in
      fst (@getOC RefPlatform.platform 1340280000 SE) = 23.437669252895766
      /\ MOE R = 23.437669252895766
      /\ OC R = 23.436539718881612).
Proof.
  split.
  - intros P t SE. repeat split.
  - vm_compute. repeat split.
Qed.

(** ** C3: whole epoch days *)

(** One second before the epoch the code stores day 0; the floor of
    [-1 / 86400] is [-1]. *)
Lemma unixDays_negative_counterexample :
  unixDays (@calcSolar RefPlatform.platform (-1) SE_initial) = 0%Z
  /\ spec_unixDays (-1) = (-1)%Z.
Proof. split; vm_compute; reflexivity. Qed.

(** C3, amended. For every timestamp [t >= 0] the whole-epoch-days field is
    [floor (t / 86400)]; for a negative [t] the integer division of C
    truncates toward zero, and the field is [- floor (- t / 86400)]. *)
Theorem unixDays_truncates :
  forall (P : Platform) (t : Z) (SE : SolarElements),
    unixDays (calcSolar t SE)
    = if (0 <=? t)%Z then spec_unixDays t else (- spec_unixDays (- t))%Z.
Proof.
  intros P t SE. rewrite calcSolar_unixDays. unfold spec_unixDays.
  destruct (Z.leb_spec 0 t) as [H|H].
  - apply Z.quot_div_nonneg; lia.
  - replace t with (- - t)%Z at 1 by lia. rewrite Z.quot_opp_l by lia.
    f_equal. apply Z.quot_div_nonneg; lia.
Qed.

(** ** C4: the time-zone shift *)




(** ** C7: polar night *)

(** C7. At latitude 75 N on the winter solstice (2012-12-21 00:00 UTC,
    longitude 0, [tzOffset = 0]) [calcSolar] on the reference platform leaves
    a not-a-number in the hour angle at sunrise [HAS] and in the fields
    computed from it ([Sunrise], [Sunset], [SunDuration]) and in no other
    field: solar noon, elevation, azimuth and every remaining [double] field
    are finite. Every field is assigned: whatever the cache held before, the
    run returns the same fully populated record. The same fields are
    not-a-number and finite at 06:00, 12:00 and 18:00 of that day and on the
    solstices of 2011 and 2013. On every platform and input a
    not-a-number [HAS] reaches [Sunrise], [Sunset] and [SunDuration], and the
    two [time_t] fields hold the conversion of a not-a-number. *)
Theorem polar_night_75N :
  let t0 := 1356048000%Z in
  let R := @calcSolar RefPlatform.platform t0 (initSolarCalc 0 75 0 SE_initial) in
  (is_nan (HAS R) = true /\ is_nan (Sunrise R) = true /\ is_nan (Sunset R) = true
   /\ is_nan (SunDuration R) = true)
  /\ (is_finite (SolarNoonfrac R) = true /\ is_finite (SolarNoonDays R) = true
      /\ SolarNoonTime R = 1356091083%Z
      /\ is_finite (SEA R) = true /\ is_finite (SEC_Corr R) = true
      /\ is_finite (SAA R) = true)
  /\ forallb is_finite
       [timeFracDay R; JDN R; JCN R; GMLS R; GMAS R; EEO R; SEC R; STL R; STA R; SRV R;
        SAL R; MOE R; OC R; SRA R; SDec R; vy R; EOT R; TST R; HA R; SZA R; AAR R] = true
  /\ (forall SE : SolarElements,
         @calcSolar RefPlatform.platform t0 (initSolarCalc 0 75 0 SE) = R)
  /\ forallb
       (fun t =>
          let R := @calcSolar RefPlatform.platform t (initSolarCalc 0 75 0 SE_initial) in
          is_nan (HAS R) && is_nan (Sunrise R) && is_nan (Sunset R)
          && is_finite (SolarNoonDays R) && is_finite (SEA R) && is_finite (SAA R))
       [t0 + 6 * 3600; t0 + 12 * 3600; t0 + 18 * 3600; t0 - 366 * 86400;
        t0 + 365 * 86400]%Z = true
  /\ (forall (P : Platform) (t : Z) (SE : SolarElements),
         is_nan (HAS (calcSolar t SE)) = true ->
         Sunrise (calcSolar t SE) = nan /\ Sunset (calcSolar t SE) = nan
         /\ SunDuration (calcSolar t SE) = nan
         /\ SunriseTime (calcSolar t SE) = time_of_double nan
         /\ SunsetTime (calcSolar t SE) = time_of_double nan).
Proof.
  cbv zeta. split; [|split; [|split; [|split; [|split]]]].
  - vm_compute. repeat split.
  - vm_compute. repeat split.
  - vm_compute. reflexivity.
  - intros SE.
    apply calcSolar_overwrites_cache;
      [reflexivity | reflexivity | reflexivity | vm_compute; reflexivity].
  - vm_compute. reflexivity.
  - intros P t SE H.
    pose proof (nan_Sunrise t SE H) as Hr. pose proof (nan_Sunset t SE H) as Hs.
    repeat split; try assumption.
    + apply nan_SunDuration, H.
    + rewrite calcSolar_SunriseTime, Hr. reflexivity.
    + rewrite calcSolar_SunsetTime, Hs. reflexivity.
Qed.

Lemma polar_night_75N_witness :
  let R := @calcSolar RefPlatform.platform 1356048000 (initSolarCalc 0 75 0 SE_initial) in
  is_nan (HAS R) = true
  /\ (Sunrise R = nan /\ Sunset R = nan /\ SunDuration R = nan
      /\ SunriseTime R = @time_of_double RefPlatform.platform nan
      /\ SunsetTime R = @time_of_double RefPlatform.platform nan).
Proof.
  cbv zeta. split.
  - vm_compute. reflexivity.
  - apply (proj2 (proj2 (proj2 (proj2 (proj2 polar_night_75N)))) RefPlatform.platform).
    vm_compute. reflexivity.
Defined.

(** ** C8: atmospheric refraction *)

(** C8. The refraction correction [AAR] is piecewise in the elevation [SEA],
    with the breakpoints 85, 5 and -0.575 degrees: above 85 it is 0; in
    (5, 85] the expression in [1 / tan]; in (-0.575, 5] the polynomial; at or
    below -0.575 it is [-20.772 / tan (elevation)], which is also what a
    not-a-number elevation is given; and in every branch the value is divided
    by 3600. *)
Theorem AAR_piecewise :
  forall (P : Platform) (t : Z) (SE : SolarElements),
    let R := calcSolar t SE in
    let e := SEA R in
    ((85 <? e) = true -> AAR R = 0 / 3600 /\ AAR R = 0)
    /\ ((5 <? e) = true -> (e <=? 85) = true ->
        AAR R = (58.1 / tan (e * DEG_TO_RAD)
                 - 0.07 / pow (tan (e * DEG_TO_RAD)) 3
                 + 0.000086 / pow (tan (e * DEG_TO_RAD)) 5) / 3600)
    /\ ((-0.575 <? e) = true -> (e <=? 5) = true ->
        AAR R = (1735 + e * (-581.2 * e * (103.4 + e * (-12.79 + e * 0.711)))) / 3600)
    /\ ((e <=? -0.575) = true -> AAR R = -20.772 / tan (e * DEG_TO_RAD) / 3600)
    /\ (is_nan e = true -> AAR R = -20.772 / tan (e * DEG_TO_RAD) / 3600).
Proof.
  intros P t SE R e. unfold R. rewrite calcSolar_AAR. fold R. fold e.
  split; [|split; [|split; [|split]]].
  - intros ->. split; [reflexivity|]. vm_compute. reflexivity.
  - intros H5 H85. rewrite (leb_ltb_false _ _ H85), H5. reflexivity.
  - intros H0 H5.
    rewrite (leb_ltb_trans_false e 5 85 H5 eq_refl), (leb_ltb_false _ _ H5), H0.
    reflexivity.
  - intros H0.
    rewrite (leb_ltb_trans_false e (-0.575) 85 H0 eq_refl),
            (leb_ltb_trans_false e (-0.575) 5 H0 eq_refl), (leb_ltb_false _ _ H0).
    reflexivity.
  - intros Hn. rewrite (is_nan_eq _ Hn). reflexivity.
Qed.

(** One run in each of the four pieces, on the reference platform: the sun
    near the zenith, at noon in Monterey, shortly after sunrise there, and in
    the polar night. *)
Lemma AAR_piecewise_witness :
  let run := fun (t tz : Z) (la lo : float) =>
               @calcSolar RefPlatform.platform t (initSolarCalc tz la lo SE_initial) in
  let R1 := run 1340280000%Z 0%Z 23.43 0 in
  let R2 := run 1340280000%Z (-8)%Z 36.62 (-121.904) in
  let R3 := run 1340254800%Z (-8)%Z 36.62 (-121.904) in
  let R4 := run 1356048000%Z 0%Z 75 0 in
  ((85 <? SEA R1) = true /\ AAR R1 = 0)
  /\ ((5 <? SEA R2) = true /\ (SEA R2 <=? 85) = true /\ AAR R2 = 0.0038285465281332432)
  /\ ((-0.575 <? SEA R3) = true /\ (SEA R3 <=? 5) = true
      /\ AAR R3 = (1735 + SEA R3 * (-581.2 * SEA R3
                     * (103.4 + SEA R3 * (-12.79 + SEA R3 * 0.711)))) / 3600)
  /\ ((SEA R4 <=? -0.575) = true
      /\ AAR R4 = -20.772 / RefPlatform.ref_tan (SEA R4 * DEG_TO_RAD) / 3600).
Proof.
  cbv zeta.
  pose proof (AAR_piecewise RefPlatform.platform 1340280000
                (initSolarCalc 0 23.43 0 SE_initial)) as H1.
  pose proof (AAR_piecewise RefPlatform.platform 1340280000
                (initSolarCalc (-8) 36.62 (-121.904) SE_initial)) as H2.
  pose proof (AAR_piecewise RefPlatform.platform 1340254800
                (initSolarCalc (-8) 36.62 (-121.904) SE_initial)) as H3.
  pose proof (AAR_piecewise RefPlatform.platform 1356048000
                (initSolarCalc 0 75 0 SE_initial)) as H4.
  cbv zeta in H1, H2, H3, H4.
  destruct H1 as (H1 & _). destruct H2 as (_ & H2 & _).
  destruct H3 as (_ & _ & H3 & _). destruct H4 as (_ & _ & _ & H4 & _).
  split; [|split; [|split]].
  - split; [vm_compute; reflexivity|]. apply H1. vm_compute. reflexivity.
  - split; [vm_compute; reflexivity|]. split; [vm_compute; reflexivity|].
    rewrite H2 by (vm_compute; reflexivity). vm_compute. reflexivity.
  - split; [vm_compute; reflexivity|]. split; [vm_compute; reflexivity|].
    apply H3; vm_compute; reflexivity.
  - split; [vm_compute; reflexivity|]. apply H4. vm_compute. reflexivity.
Defined.

(** ** C9: the configuration *)

(** C9. After [initSolarCalc tz lat lon], [gettzOffset], [getlat] and
    [getlon] return [tz], [lat] and [lon], and go on doing so through any
    sequence of calls to the accessors and extractor functions that contains
    no further initialisation; the three accessors return the cache they were
    given; and [initSolarCalc] changes the fields [tzOffset], [lat] and [lon]
    and no other. *)
Theorem configuration_frame :
  forall (P : Platform) (tz : Z) (la lo : float) (SE : SolarElements),
    let S0 := initSolarCalc tz la lo SE in
    (fst (gettzOffset S0) = tz /\ fst (getlat S0) = la /\ fst (getlon S0) = lo)
    /\ (forall cs : list call,
           forallb (fun c => negb (is_init c)) cs = true ->
           let S1 := run_calls cs S0 in
           fst (gettzOffset S1) = tz /\ fst (getlat S1) = la /\ fst (getlon S1) = lo)
    /\ (forall S : SolarElements,
           snd (gettzOffset S) = S /\ snd (getlat S) = S /\ snd (getlon S) = S)
    /\ S0 = mkSolarElements tz la lo
              (timeFracDay SE) (unixDays SE) (JDN SE) (JCN SE) (GMLS SE) (GMAS SE)
              (EEO SE) (SEC SE) (STL SE) (STA SE) (SRV SE) (SAL SE) (MOE SE) (OC SE)
              (SRA SE) (SDec SE) (vy SE) (EOT SE) (HAS SE) (SolarNoonfrac SE)
              (SolarNoonDays SE) (SolarNoonTime SE) (Sunrise SE) (SunriseTime SE)
              (Sunset SE) (SunsetTime SE) (SunDuration SE) (TST SE) (HA SE) (SZA SE)
              (SEA SE) (AAR SE) (SEC_Corr SE) (SAA SE).
Proof.
  intros P tz la lo SE S0. split; [|split; [|split]].
  - repeat split.
  - intros cs H S1. unfold S1.
    destruct (run_calls_config cs S0 H) as (Ht & Hla & Hlo).
    simpl. rewrite Ht, Hla, Hlo. repeat split.
  - intros S. repeat split.
  - reflexivity.
Qed.

Lemma configuration_frame_witness :
  let S0 := initSolarCalc (-8) 36.62 (-121.904) SE_initial in
  let S1 := @run_calls RefPlatform.platform
              [call_extract 1340280000; call_getlat; call_extract 1356048000;
               call_gettzOffset; call_getlon] S0 in
  fst (gettzOffset S1) = (-8)%Z /\ fst (getlat S1) = 36.62 /\ fst (getlon S1) = -121.904.
Proof.
  cbv zeta.
  apply (proj1 (proj2 (configuration_frame RefPlatform.platform
                         (-8) 36.62 (-121.904) SE_initial))).
  reflexivity.
Defined.

(** ** C10: the [time_t] outputs *)

(** C10. [SolarNoonTime], [SunriseTime] and [SunsetTime] are the conversions
    to [time_t] of the corresponding [double] values, a truncation toward zero
    wherever the integer part fits. When [Sunrise] or [Sunset] is a
    not-a-number, the conversion is applied to a not-a-number: the field then
    holds an ordinary value of [time_t], the same on every such run, which is
    also the conversion of a finite [double]; the integer outputs alone do
    not tell a day without sunrise. *)
Theorem time_outputs_by_truncation :
  forall (P : Platform) (t : Z) (SE : SolarElements),
    let R := calcSolar t SE in
    (SolarNoonTime R = time_of_double (SolarNoonDays R * 86400)
     /\ SunriseTime R = time_of_double (Sunrise R)
     /\ SunsetTime R = time_of_double (Sunset R))
    /\ (forall (x : float) (z : Z),
           trunc_double x = Some z -> (INT_MIN <= z <= INT_MAX)%Z -> time_of_double x = z)
    /\ (time_of_double 1.9 = 1%Z /\ time_of_double (-1.9) = (-1)%Z)
    /\ (is_nan (Sunrise R) = true -> SunriseTime R = time_of_double nan)
    /\ (is_nan (Sunset R) = true -> SunsetTime R = time_of_double nan)
    /\ (INT_MIN <= time_of_double nan <= INT_MAX)%Z
    /\ (exists x : float, is_finite x = true /\ time_of_double x = time_of_double nan).
Proof.
  intros P t SE R. repeat split.
  - apply time_of_double_trunc.
  - intros H. unfold R. rewrite calcSolar_SunriseTime. fold R.
    now rewrite (is_nan_eq _ H).
  - intros H. unfold R. rewrite calcSolar_SunsetTime. fold R.
    now rewrite (is_nan_eq _ H).
  - apply time_of_double_range.
  - apply time_of_double_range.
  - apply time_of_double_nan_collides.
Qed.

Lemma time_outputs_by_truncation_witness :
  let R := @calcSolar RefPlatform.platform 1356048000 (initSolarCalc 0 75 0 SE_initial) in
  is_nan (Sunrise R) = true /\ is_nan (Sunset R) = true
  /\ SunriseTime R = @time_of_double RefPlatform.platform nan
  /\ SunsetTime R = @time_of_double RefPlatform.platform nan
  /\ @time_of_double RefPlatform.platform nan = 0%Z
  /\ @time_of_double RefPlatform.platform 0.5 = 0%Z.
Proof.
  cbv zeta.
  pose proof (time_outputs_by_truncation RefPlatform.platform 1356048000
                (initSolarCalc 0 75 0 SE_initial)) as H.
  cbv zeta in H. destruct H as (_ & _ & _ & Hrise & Hset & _).
  split; [vm_compute; reflexivity|].
  split; [vm_compute; reflexivity|].
  split; [apply Hrise; vm_compute; reflexivity|].
  split; [apply Hset; vm_compute; reflexivity|].
  split; vm_compute; reflexivity.
Defined.

(** * Further properties of the code *)

Local Open Scope Z_scope.

(** ** Rounding never makes a not-a-number of a number *)

Lemma shr_1_nonneg (mrs : shr_record) : (0 <= shr_m mrs)%Z -> (0 <= shr_m (shr_1 mrs))%Z.
Proof.
  destruct mrs as [m r s]. destruct m as [|p|p]; simpl; try lia.
  destruct p; simpl; lia.
Qed.

Lemma iter_pos_shr_1_nonneg (p : positive) :
  forall mrs : shr_record,
    (0 <= shr_m mrs)%Z -> (0 <= shr_m (iter_pos shr_1 p mrs))%Z.
Proof.
  induction p as [p IH|p IH|]; intros mrs H; simpl.
  - apply IH, IH, shr_1_nonneg, H.
  - apply IH, IH, H.
  - apply shr_1_nonneg, H.
Qed.

Lemma shr_fexp_nonneg (m e : Z) (l : location) :
  (0 <= m)%Z -> (0 <= shr_m (fst (shr_fexp prec emax m e l)))%Z.
Proof.
  intros H. unfold shr_fexp, shr.
  assert (H0 : (0 <= shr_m (shr_record_of_loc m l))%Z).
  { destruct l as [|[ | | ]]; exact H. }
  match goal with |- context [match ?n with Z0 => _ | Zpos _ => _ | Zneg _ => _ end] =>
    destruct n end; simpl; auto.
  apply iter_pos_shr_1_nonneg, H0.
Qed.

Lemma round_nearest_even_nonneg (m : Z) (l : location) :
  (0 <= m)%Z -> (0 <= round_nearest_even m l)%Z.
Proof.
  intros H. destruct l as [|[ | | ]]; simpl; try assumption.
  - destruct (Z.even m); [assumption|]. change (0 <= m + 1)%Z. lia.
  - change (0 <= m + 1)%Z. lia.
Qed.

Lemma binary_round_aux_not_nan (s : bool) (m e : Z) (l : location) :
  (0 <= m)%Z -> binary_round_aux prec emax s m e l <> S754_nan.
Proof.
  intros H. unfold binary_round_aux.
  pose proof (shr_fexp_nonneg m e l H) as H1.
  destruct (shr_fexp prec emax m e l) as [mrs' e']. simpl in H1.
  pose proof (shr_fexp_nonneg _ e' loc_Exact
                (round_nearest_even_nonneg _ (loc_of_shr_record mrs') H1)) as H2.
  destruct (shr_fexp prec emax (round_nearest_even (shr_m mrs') (loc_of_shr_record mrs'))
              e' loc_Exact) as [mrs'' e''].
  simpl in H2. destruct (shr_m mrs'') as [|p|p]; try discriminate; try lia.
  now destruct (Z.leb e'' (Z.sub emax prec)).
Qed.

(** The product of a number and a finite non-zero constant, and the quotient
    of a number by one, are numbers. *)
Lemma is_nan_mul_finite_l (c x : float) (s : bool) (m : positive) (e : Z) :
  Prim2SF c = S754_finite s m e -> is_nan (c * x) = is_nan x.
Proof.
  intros Hc. destruct (is_nan x) eqn:Hx.
  - rewrite (is_nan_eq _ Hx), mul_nan_r. reflexivity.
  - destruct (is_nan (c * x)) eqn:Hcx; [exfalso|reflexivity].
    apply is_nan_Prim2SF in Hcx. rewrite mul_spec, Hc in Hcx.
    assert (Hn : Prim2SF x <> S754_nan).
    { intros E. apply is_nan_Prim2SF in E. congruence. }
    destruct (Prim2SF x) as [sx|sx| |sx mx ex]; try discriminate; try congruence.
    revert Hcx. apply binary_round_aux_not_nan. apply Pos2Z.is_nonneg.
Qed.

Lemma is_nan_div_finite_r (x c : float) (s : bool) (m : positive) (e : Z) :
  Prim2SF c = S754_finite s m e -> is_nan (x / c) = is_nan x.
Proof.
  intros Hc. destruct (is_nan x) eqn:Hx.
  - rewrite (is_nan_eq _ Hx), div_nan_l. reflexivity.
  - destruct (is_nan (x / c)) eqn:Hcx; [exfalso|reflexivity].
    apply is_nan_Prim2SF in Hcx. rewrite div_spec, Hc in Hcx.
    assert (Hn : Prim2SF x <> S754_nan).
    { intros E. apply is_nan_Prim2SF in E. congruence. }
    destruct (Prim2SF x) as [sx|sx| |sx mx ex]; try discriminate; try congruence.
    revert Hcx. unfold SF64div, SFdiv, SFdiv_core_binary.
    match goal with |- context [Z.div_eucl ?a ?b] =>
      pose proof (Z.div_pos a b) as Hq; unfold Z.div in Hq;
      destruct (Z.div_eucl a b) as [q r] end.
    apply binary_round_aux_not_nan. apply Hq; [|reflexivity].
    match goal with |- (0 <= match ?n with Z0 => _ | Zpos _ => _ | Zneg _ => _ end)%Z =>
      destruct n end; try (apply Pos2Z.is_nonneg); try reflexivity.
    apply Z.shiftl_nonneg. apply Pos2Z.is_nonneg.
Qed.

Lemma is_nan_quarter (x : float) : is_nan (x / 4) = is_nan x.
Proof. exact (is_nan_div_finite_r x 4 false 4503599627370496 (-50) eq_refl). Qed.

(** ** Two runs that read the same clock and end with the same hour angle

    The timestamp enters [calcSolar] through the time-of-day fraction and
    the whole days only, and the cache through the configuration and, when
    the true solar time is not a number, through the hour angle it held. *)
Section SameClock.

Context {P : Platform}.
Variables (t t' : Z) (S S' : SolarElements).

Local Abbreviation R := (calcSolar t S).
Local Abbreviation R' := (calcSolar t' S').

Hypothesis same_tzOffset : tzOffset S = tzOffset S'.
Hypothesis same_lat : lat S = lat S'.
Hypothesis same_lon : lon S = lon S'.
Hypothesis same_timeFracDay : timeFracDay R = timeFracDay R'.
Hypothesis same_unixDays : unixDays R = unixDays R'.

Lemma sc_JDN : JDN R = JDN R'.
Proof.
  rewrite !calcSolar_JDN, !calcSolar_tzOffset.
  now rewrite same_timeFracDay, same_unixDays, same_tzOffset.
Qed.

Lemma sc_SolarNoonDays : SolarNoonDays R = SolarNoonDays R'.
Proof.
  rewrite !calcSolar_SolarNoonDays, !calcSolar_tzOffset.
  now rewrite (same_SolarNoonfrac t t' S S' same_lon sc_JDN), same_unixDays, same_tzOffset.
Qed.

Lemma sc_Sunrise : Sunrise R = Sunrise R'.
Proof.
  rewrite !calcSolar_Sunrise, !calcSolar_tzOffset.
  now rewrite (same_SolarNoonfrac t t' S S' same_lon sc_JDN),
              (same_HAS t t' S S' same_lat sc_JDN), same_unixDays, same_tzOffset.
Qed.

Lemma sc_Sunset : Sunset R = Sunset R'.
Proof.
  rewrite !calcSolar_Sunset, !calcSolar_tzOffset.
  now rewrite (same_SolarNoonfrac t t' S S' same_lon sc_JDN),
              (same_HAS t t' S S' same_lat sc_JDN), same_unixDays, same_tzOffset.
Qed.

Lemma sc_TST : TST R = TST R'.
Proof.
  rewrite !calcSolar_TST, !calcSolar_tzOffset, !calcSolar_lon.
  now rewrite (same_EOT t t' S S' sc_JDN), same_timeFracDay, same_lon, same_tzOffset.
Qed.

(** The hour angle is the one field that can differ, and only by what the
    two caches held. *)
Lemma sc_HA : HA S = HA S' \/ is_nan (TST R) = false -> HA R = HA R'.
Proof.
  intros H. rewrite !calcSolar_HA, <- sc_TST.
  destruct (TST R / 4 <? 0)%float eqn:H1; [reflexivity|].
  destruct (0 <=? TST R / 4)%float eqn:H2; [reflexivity|].
  destruct H as [H|H]; [exact H|].
  rewrite <- is_nan_quarter in H.
  destruct (not_nan_ltb_or_leb _ H); congruence.
Qed.

Hypothesis same_HA : HA R = HA R'.

Lemma sc_SZA : SZA R = SZA R'.
Proof.
  rewrite !calcSolar_SZA, !calcSolar_lat.
  now rewrite same_HA, (same_SDec t t' S S' sc_JDN), same_lat.
Qed.

Lemma sc_SEA : SEA R = SEA R'.
Proof. rewrite !calcSolar_SEA. now rewrite sc_SZA. Qed.

Lemma sc_AAR : AAR R = AAR R'.
Proof. rewrite !calcSolar_AAR. now rewrite sc_SEA. Qed.

Lemma sc_SAA : SAA R = SAA R'.
Proof.
  rewrite !calcSolar_SAA, !calcSolar_lat.
  now rewrite same_HA, sc_SZA, (same_SDec t t' S S' sc_JDN), same_lat.
Qed.

Lemma calcSolar_same_clock : R = R'.
Proof.
  pose proof sc_JDN as HJ.
  rewrite (SolarElements_eta R), (SolarElements_eta R').
  rewrite !calcSolar_tzOffset, !calcSolar_lat, !calcSolar_lon.
  rewrite same_timeFracDay, same_unixDays.
  rewrite HJ, (same_JCN t t' S S' HJ), (same_GMLS t t' S S' HJ), (same_GMAS t t' S S' HJ),
    (same_EEO t t' S S' HJ), (same_SEC t t' S S' HJ), (same_STL t t' S S' HJ),
    (same_STA t t' S S' HJ), (same_SRV t t' S S' HJ), (same_SAL t t' S S' HJ),
    (same_MOE t t' S S' HJ), (same_OC t t' S S' HJ), (same_SRA t t' S S' HJ),
    (same_SDec t t' S S' HJ), (same_vy t t' S S' HJ), (same_EOT t t' S S' HJ),
    (same_HAS t t' S S' same_lat HJ), (same_SolarNoonfrac t t' S S' same_lon HJ),
    (same_SunDuration t t' S S' same_lat HJ).
  rewrite !calcSolar_SolarNoonTime, !calcSolar_SunriseTime, !calcSolar_SunsetTime,
    !calcSolar_SEC_Corr.
  rewrite sc_SolarNoonDays, sc_Sunrise, sc_Sunset, sc_TST, same_HA, sc_SZA, sc_SEA,
    sc_AAR, sc_SAA.
  now rewrite same_tzOffset, same_lat, same_lon.
Qed.

End SameClock.

Section Rerun.

Context {P : Platform}.

(** Running [calcSolar] again on its own result, for the same timestamp,
    changes nothing. *)
Lemma calcSolar_idempotent (t : Z) (SE : SolarElements) :
  calcSolar t (calcSolar t SE) = calcSolar t SE.
Proof.
  pose proof (calcSolar_tzOffset t SE) as Htz.
  pose proof (calcSolar_lat t SE) as Hla.
  pose proof (calcSolar_lon t SE) as Hlo.
  assert (Hf : timeFracDay (calcSolar t (calcSolar t SE)) = timeFracDay (calcSolar t SE)).
  { now rewrite !calcSolar_timeFracDay. }
  assert (Hu : unixDays (calcSolar t (calcSolar t SE)) = unixDays (calcSolar t SE)).
  { now rewrite !calcSolar_unixDays. }
  apply (calcSolar_same_clock t t (calcSolar t SE) SE Htz Hla Hlo Hf Hu).
  rewrite (calcSolar_HA t (calcSolar t SE)).
  rewrite (sc_TST t t (calcSolar t SE) SE Htz Hlo Hf Hu).
  rewrite (calcSolar_HA t SE).
  destruct (TST (calcSolar t SE) / 4 <? 0)%float; [reflexivity|].
  destruct (0 <=? TST (calcSolar t SE) / 4)%float; reflexivity.
Qed.

(** Timestamps with the same minute, hour and day give the same result. *)
Lemma calcSolar_time (t t' : Z) (SE : SolarElements) :
  minute t = minute t' -> hour t = hour t' -> Z.quot t 86400 = Z.quot t' 86400 ->
  calcSolar t SE = calcSolar t' SE.
Proof.
  intros Hm Hh Hd.
  assert (Hf : timeFracDay (calcSolar t SE) = timeFracDay (calcSolar t' SE)).
  { rewrite !calcSolar_timeFracDay, !second_quot_60. now rewrite Hm, Hh. }
  assert (Hu : unixDays (calcSolar t SE) = unixDays (calcSolar t' SE)).
  { rewrite !calcSolar_unixDays. exact Hd. }
  apply (calcSolar_same_clock t t' SE SE eq_refl eq_refl eq_refl Hf Hu).
  apply (sc_HA t t' SE SE eq_refl eq_refl Hf Hu). left. reflexivity.
Qed.

End Rerun.

(** ** A longitude that is not a number *)

(** X1. The longitude is not checked. When it is a not-a-number, solar noon,
    sunrise, sunset and the true solar time are not-a-number, the three
    [time_t] outputs hold the conversion of a not-a-number, and the hour
    angle [HA] is not assigned at all (neither test of the [if] / [else if]
    holds): it keeps the value the cache held before the call, the result of
    whatever run came before. *)
Theorem nan_longitude_keeps_old_HA (P : Platform) (t : Z) (SE : SolarElements) :
  is_nan (lon SE) = true ->
  SolarNoonfrac (calcSolar t SE) = nan
  /\ SolarNoonDays (calcSolar t SE) = nan
  /\ Sunrise (calcSolar t SE) = nan
  /\ Sunset (calcSolar t SE) = nan
  /\ SolarNoonTime (calcSolar t SE) = time_of_double nan
  /\ SunriseTime (calcSolar t SE) = time_of_double nan
  /\ SunsetTime (calcSolar t SE) = time_of_double nan
  /\ TST (calcSolar t SE) = nan
  /\ HA (calcSolar t SE) = HA SE.
Proof.
  intros H.
  assert (Hf : SolarNoonfrac (calcSolar t SE) = nan).
  { rewrite calcSolar_SolarNoonfrac, calcSolar_lon. nan_spreads H. }
  assert (Hd : SolarNoonDays (calcSolar t SE) = nan).
  { rewrite calcSolar_SolarNoonDays, Hf. autorewrite with nan. reflexivity. }
  assert (Hr : Sunrise (calcSolar t SE) = nan).
  { rewrite calcSolar_Sunrise, Hf. autorewrite with nan. reflexivity. }
  assert (Hs : Sunset (calcSolar t SE) = nan).
  { rewrite calcSolar_Sunset, Hf. autorewrite with nan. reflexivity. }
  assert (Ht : TST (calcSolar t SE) = nan).
  { rewrite calcSolar_TST, calcSolar_lon. cbv zeta. nan_spreads H. }
  repeat split; try assumption.
  - rewrite calcSolar_SolarNoonTime, Hd. autorewrite with nan. reflexivity.
  - rewrite calcSolar_SunriseTime, Hr. reflexivity.
  - rewrite calcSolar_SunsetTime, Hs. reflexivity.
  - rewrite calcSolar_HA, Ht. reflexivity.
Qed.

Lemma nan_longitude_keeps_old_HA_witness :
  let S1 := @calcSolar RefPlatform.platform 1340280000
              (initSolarCalc (-8) 36.62 (-121.9) SE_initial) in
  let S2 := initSolarCalc (-8) 36.62 nan S1 in
  is_nan (lon S2) = true
  /\ (HA S2 <? -2)%float = true
  /\ HA (@calcSolar RefPlatform.platform 1340236800 S2) = HA S2.
Proof.
  cbv zeta. split; [reflexivity|split].
  - vm_compute. reflexivity.
  - exact (proj2 (proj2 (proj2 (proj2 (proj2 (proj2 (proj2 (proj2
      (nan_longitude_keeps_old_HA RefPlatform.platform 1340236800
         (initSolarCalc (-8) 36.62 nan
            (@calcSolar RefPlatform.platform 1340280000
               (initSolarCalc (-8) 36.62 (-121.9) SE_initial)))
         eq_refl))))))))).
Defined.

(** ** The resolution of the timestamp *)

(** X2. The timestamp enters the computation through its minute, its hour
    and its day only: two timestamps at or after the epoch that fall in the
    same minute give the same record, field for field. *)
Theorem results_change_once_a_minute (P : Platform) (t t' : Z) (SE : SolarElements) :
  0 <= t -> 0 <= t' -> t / 60 = t' / 60 -> calcSolar t SE = calcSolar t' SE.
Proof.
  intros Ht Ht' H.
  assert (H3600 : forall a, a / 3600 = a / 60 / 60).
  { intros a. rewrite Z.div_div by lia. reflexivity. }
  assert (H86400 : forall a, a / 86400 = a / 60 / 1440).
  { intros a. rewrite Z.div_div by lia. reflexivity. }
  apply calcSolar_time.
  - unfold minute. now rewrite H.
  - unfold hour. now rewrite !H3600, H.
  - rewrite !Z.quot_div_nonneg by lia. now rewrite !H86400, H.
Qed.

Lemma results_change_once_a_minute_witness :
  @calcSolar RefPlatform.platform 1340280000 (initSolarCalc (-8) 36.62 (-121.9) SE_initial)
  = @calcSolar RefPlatform.platform 1340280059 (initSolarCalc (-8) 36.62 (-121.9) SE_initial).
Proof.
  apply (results_change_once_a_minute RefPlatform.platform 1340280000 1340280059);
    [lia | lia | reflexivity].
Defined.

(** ** Calls in a row *)

(** X3. After an extractor call for a timestamp, further extractor calls for
    the same timestamp and calls of the configuration accessors, in any
    number and order, leave the cache as the first call left it. So the
    values that separate extractors return for one timestamp are the fields
    of one record: [getSunsetTime] after [getSunriseTime] returns the
    [SunsetTime] of the record the first call computed and changes nothing. *)
Theorem same_timestamp_calls_change_nothing
    (P : Platform) (t : Z) (cs : list call) (SE : SolarElements) :
  forallb (same_time_or_accessor t) cs = true ->
  run_calls (call_extract t :: cs) SE = calcSolar t SE
  /\ fst (getSunsetTime t (snd (getSunriseTime t SE))) = SunsetTime (calcSolar t SE)
  /\ snd (getSunsetTime t (snd (getSunriseTime t SE))) = snd (getSunriseTime t SE).
Proof.
  intros H. split; [|split].
  - unfold run_calls. simpl fold_left.
    change (fold_left (fun s c => run_call c s) cs (calcSolar t SE) = calcSolar t SE).
    induction cs as [|c cs IH]; [reflexivity|].
    simpl in H. apply andb_true_iff in H. destruct H as [Hc Hcs].
    simpl fold_left.
    assert (E : run_call c (calcSolar t SE) = calcSolar t SE).
    { destruct c as [tz la lo| | | |t0]; try discriminate; try reflexivity.
      simpl in Hc. apply Z.eqb_eq in Hc. subst t0. apply calcSolar_idempotent. }
    rewrite E. apply IH, Hcs.
  - change (SunsetTime (calcSolar t (calcSolar t SE)) = SunsetTime (calcSolar t SE)).
    now rewrite calcSolar_idempotent.
  - change (calcSolar t (calcSolar t SE) = calcSolar t SE).
    apply calcSolar_idempotent.
Qed.

Lemma same_timestamp_calls_change_nothing_witness :
  let S0 := initSolarCalc (-8) 36.62 (-121.9) SE_initial in
  @run_calls RefPlatform.platform
    [call_extract 1340280000; call_getlat; call_extract 1340280000; call_gettzOffset;
     call_extract 1340280000] S0
  = @calcSolar RefPlatform.platform 1340280000 S0.
Proof.
  cbv zeta.
  exact (proj1 (same_timestamp_calls_change_nothing RefPlatform.platform 1340280000
                  [call_getlat; call_extract 1340280000; call_gettzOffset;
                   call_extract 1340280000]
                  (initSolarCalc (-8) 36.62 (-121.9) SE_initial) eq_refl)).
Defined.

(** X4. Whatever extractor and accessor calls came before, and for whatever
    timestamps, an extractor call whose true solar time is a number leaves
    the cache that the same call leaves when it comes first: nothing of the
    earlier results survives it. *)
Theorem last_timestamp_decides
    (P : Platform) (t : Z) (cs : list call) (SE : SolarElements) :
  forallb (fun c => negb (is_init c)) cs = true ->
  is_nan (TST (calcSolar t SE)) = false ->
  run_calls (cs ++ [call_extract t]) SE = calcSolar t SE.
Proof.
  intros Hcs HT. unfold run_calls. rewrite fold_left_app. simpl fold_left.
  change (calcSolar t (run_calls cs SE) = calcSolar t SE).
  destruct (run_calls_config cs SE Hcs) as (Htz & Hla & Hlo).
  assert (Hf : timeFracDay (calcSolar t SE) = timeFracDay (calcSolar t (run_calls cs SE))).
  { now rewrite !calcSolar_timeFracDay. }
  assert (Hu : unixDays (calcSolar t SE) = unixDays (calcSolar t (run_calls cs SE))).
  { now rewrite !calcSolar_unixDays. }
  symmetry.
  apply (calcSolar_same_clock t t SE (run_calls cs SE)
           (eq_sym Htz) (eq_sym Hla) (eq_sym Hlo) Hf Hu).
  apply (sc_HA t t SE (run_calls cs SE) (eq_sym Htz) (eq_sym Hlo) Hf Hu).
  right. exact HT.
Qed.

Lemma last_timestamp_decides_witness :
  let S0 := initSolarCalc (-8) 36.62 (-121.9) SE_initial in
  @run_calls RefPlatform.platform
    [call_extract 1356048000; call_getlon; call_extract 0; call_extract 1340280000] S0
  = @calcSolar RefPlatform.platform 1340280000 S0.
Proof.
  cbv zeta.
  apply (last_timestamp_decides RefPlatform.platform 1340280000
           [call_extract 1356048000; call_getlon; call_extract 0]
           (initSolarCalc (-8) 36.62 (-121.9) SE_initial)).
  - reflexivity.
  - vm_compute. reflexivity.
Defined.

(** ** Day length *)

(** X5. The day length [SunDuration] is a not-a-number exactly when the hour
    angle at sunrise [HAS] is: the product by 8 neither loses a not-a-number
    nor makes one. *)
Theorem day_length_nan_exactly_with_HAS (P : Platform) (t : Z) (SE : SolarElements) :
  is_nan (SunDuration (calcSolar t SE)) = is_nan (HAS (calcSolar t SE)).
Proof.
  rewrite calcSolar_SunDuration.
  exact (is_nan_mul_finite_l 8 _ false 4503599627370496 (-49) eq_refl).
Qed.

(** ** What depends on the latitude, and what on the longitude *)

(** X6. At a given timestamp and time zone, the equation of time, solar noon
    (fraction, days and [time_t]) and the true solar time do not depend on
    the latitude, nor on what the cache held; the declination, the hour
    angle at sunrise and the day length do not depend on the longitude. *)
Theorem site_dependence
    (P : Platform) (t tz : Z) (la la' lo lo' : float) (SE SE' : SolarElements) :
  let A := calcSolar t (initSolarCalc tz la lo SE) in
  let B := calcSolar t (initSolarCalc tz la' lo SE') in
  let C := calcSolar t (initSolarCalc tz la lo' SE') in
  (EOT A = EOT B /\ SolarNoonfrac A = SolarNoonfrac B /\ SolarNoonDays A = SolarNoonDays B
   /\ SolarNoonTime A = SolarNoonTime B /\ TST A = TST B)
  /\ (SDec A = SDec C /\ HAS A = HAS C /\ SunDuration A = SunDuration C).
Proof.
  cbv zeta.
  set (S0 := initSolarCalc tz la lo SE).
  set (S1 := initSolarCalc tz la' lo SE').
  set (S2 := initSolarCalc tz la lo' SE').
  assert (HJ1 : JDN (calcSolar t S0) = JDN (calcSolar t S1)).
  { exact (ow_JDN t S0 S1 eq_refl). }
  assert (HJ2 : JDN (calcSolar t S0) = JDN (calcSolar t S2)).
  { exact (ow_JDN t S0 S2 eq_refl). }
  pose proof (ow_SolarNoonDays t S0 S1 eq_refl eq_refl) as Hd.
  assert (Hn : SolarNoonTime (calcSolar t S0) = SolarNoonTime (calcSolar t S1)).
  { rewrite !calcSolar_SolarNoonTime. now rewrite Hd. }
  exact (conj
           (conj (same_EOT t t S0 S1 HJ1)
              (conj (same_SolarNoonfrac t t S0 S1 eq_refl HJ1)
                 (conj Hd (conj Hn (ow_TST t S0 S1 eq_refl eq_refl)))))
           (conj (same_SDec t t S0 S2 HJ2)
              (conj (same_HAS t t S0 S2 eq_refl HJ2)
                 (same_SunDuration t t S0 S2 eq_refl HJ2)))).
Qed.

(** ** The time-of-day fraction *)

(** The 1440 clock readings of a day, one by one. *)
Lemma clock_fraction_table :
  forallb (fun h =>
     forallb (fun m => ((0 <=? clock_fraction h m)
                        && (clock_fraction h m <=? 0.99930555555555556)
                        && (clock_fraction h m <? 1))%float)
       (map Z.of_nat (seq 0 60)))
    (map Z.of_nat (seq 0 24)) = true.
Proof. vm_compute. reflexivity. Qed.

Lemma In_below (n : nat) (z : Z) : 0 <= z < Z.of_nat n -> In z (map Z.of_nat (seq 0 n)).
Proof.
  intros H. apply in_map_iff. exists (Z.to_nat z). split; [lia|].
  apply in_seq. lia.
Qed.

(** X7. On every timestamp the time-of-day fraction is at least 0 and below
    1; it is at most 0.99930555555555556, the value at 23:59. *)
Theorem timeFracDay_is_a_day_fraction (P : Platform) (t : Z) (SE : SolarElements) :
  (0 <=? timeFracDay (calcSolar t SE))%float = true
  /\ (timeFracDay (calcSolar t SE) <=? 0.99930555555555556)%float = true
  /\ (timeFracDay (calcSolar t SE) <? 1)%float = true.
Proof.
  rewrite calcSolar_timeFracDay, second_quot_60.
  change ((0 <=? clock_fraction (hour t) (minute t))%float = true
          /\ (clock_fraction (hour t) (minute t) <=? 0.99930555555555556)%float = true
          /\ (clock_fraction (hour t) (minute t) <? 1)%float = true).
  pose proof clock_fraction_table as T.
  rewrite forallb_forall in T.
  assert (Hh : In (hour t) (map Z.of_nat (seq 0 24))).
  { apply In_below. unfold hour. apply Z.mod_pos_bound. lia. }
  specialize (T _ Hh). rewrite forallb_forall in T.
  assert (Hm : In (minute t) (map Z.of_nat (seq 0 60))).
  { apply In_below. unfold minute. apply Z.mod_pos_bound. lia. }
  specialize (T _ Hm). apply andb_true_iff in T. destruct T as [T T2].
  apply andb_true_iff in T. destruct T as [T0 T1]. auto.
Qed.
